(** * Event registration service: admission, unregistration and listing

    A shallow embedding of [events/models.py], [events/serializers.py] and
    the three registration actions of [events/views.py], followed by the
    properties of the registration protocol.

    Conventions of the embedding:
    - primary keys, foreign keys and timestamps are integers ([Z]); a
      timestamp is the value [timezone.now()] returned, in any fixed unit;
    - [max_participants] is a nullable non-negative integer ([option nat]);
    - the [Event] table is a finite map from primary key to row, the
      [EventRegistration] table is the list of its rows in insertion order;
    - an ORM call that raises is a value of type [Exn + _];
    - a view returns an [Outcome]: the [Response] it builds, or the
      exception that leaves it. *)

From stdpp Require Import base gmap list sorting strings.
From Stdlib Require Import ZArith Lia.

(** ** events/models.py *)

Module models.

(** Row of [Event], without its free-text columns ([title], [description],
    [location]) and its bookkeeping timestamps: no registration action
    decides anything on them. The primary key is the key of the table. *)
Record Event := {
  date : Z;
  organizer : Z;
  max_participants : option nat
}.

(** Row of [EventRegistration]; [event] and [user] are foreign keys. *)
Record EventRegistration := {
  id : Z;
  event : Z;
  user : Z;
  registered_at : Z
}.

Global Instance EventRegistration_eq_dec : EqDecision EventRegistration.
Proof. solve_decision. Defined.

Record DB := {
  Event_objects : gmap Z Event;
  EventRegistration_objects : list EventRegistration;
  next_id : Z
}.

(** [QuerySet.exists()] *)
Definition exists_ (qs : list EventRegistration) : bool :=
  match qs with
  | [] => false
  | _ :: _ => true
  end.

(** Exceptions that the actions can let escape or have to handle. *)
Inductive Exn :=
| Http404
| NotAuthenticated
| Event_DoesNotExist
| EventRegistration_DoesNotExist
| MultipleObjectsReturned
| IntegrityError.

Global Instance Exn_eq_dec : EqDecision Exn.
Proof. solve_decision. Defined.

(** [QuerySet.get()]: the only matching row, or an exception. *)
Definition get (qs : list EventRegistration) : Exn + EventRegistration :=
  match qs with
  | [] => inl EventRegistration_DoesNotExist
  | [r] => inr r
  | _ :: _ :: _ => inl MultipleObjectsReturned
  end.

(** [event.registrations]: the reverse side of the foreign key. *)
Definition event_registrations (db : DB) (pk : Z) : list EventRegistration :=
  filter (λ r, event r = pk) (EventRegistration_objects db).

(** [EventRegistration.objects.filter(event=event, user=user)] *)
Definition filter_event_user (db : DB) (pk u : Z) : list EventRegistration :=
  filter (λ r, event r = pk ∧ user r = u) (EventRegistration_objects db).

(** [Event.registered_count] *)
Definition registered_count (db : DB) (pk : Z) : nat :=
  length (event_registrations db pk).

(** [Event.is_full] *)
Definition is_full (db : DB) (pk : Z) (e : Event) : bool :=
  match max_participants e with
  | None => false
  | Some m => bool_decide (m ≤ registered_count db pk)
  end.

(** [Event.is_past], [now] being the value of [timezone.now()] *)
Definition is_past (e : Event) (now : Z) : bool :=
  bool_decide (date e < now)%Z.

(** The row that an insertion for [(pk, u)] writes: it takes the next
    value of the primary key sequence and [registered_at = stamp]
    ([auto_now_add]). *)
Definition new_row (db : DB) (stamp pk u : Z) : EventRegistration :=
  {| id := next_id db; event := pk; user := u; registered_at := stamp |}.

Definition insert_row (db : DB) (r : EventRegistration) : DB :=
  {| Event_objects := Event_objects db;
     EventRegistration_objects := EventRegistration_objects db ++ [r];
     next_id := (next_id db + 1)%Z |}.

(** [EventRegistration.objects.create(event=event, user=user)];
    [unique_together] rejects a second row for the same pair. *)
Definition objects_create (db : DB) (stamp pk u : Z)
  : Exn + (EventRegistration * DB) :=
  if exists_ (filter_event_user db pk u) then inl IntegrityError
  else
    let r := new_row db stamp pk u in
    inr (r, insert_row db r).

(** [registration.delete()]: [DELETE ... WHERE id = registration.id] *)
Definition delete (db : DB) (r : EventRegistration) : DB :=
  {| Event_objects := Event_objects db;
     EventRegistration_objects :=
       filter (λ r', id r' ≠ id r) (EventRegistration_objects db);
     next_id := next_id db |}.

(** [Meta.ordering = ['-registered_at']]: [a] may precede [b]. *)
Definition newest_first (a b : EventRegistration) : Prop :=
  (registered_at b ≤ registered_at a)%Z.

Global Instance newest_first_dec a b : Decision (newest_first a b).
Proof. unfold newest_first. apply _. Defined.

Global Instance newest_first_total : Total newest_first.
Proof. intros a b. unfold newest_first. lia. Qed.

(** [EventRegistration.objects.filter(event=event)], in the default
    ordering of the model. *)
Definition filter_event (db : DB) (pk : Z) : list EventRegistration :=
  merge_sort newest_first (event_registrations db pk).

(** What the schema guarantees of the registration table: primary keys
    are unique and below the sequence, and [unique_together] holds. *)
Definition db_ok (db : DB) : Prop :=
  NoDup (id <$> EventRegistration_objects db)
  ∧ Forall (λ r, (id r < next_id db)%Z) (EventRegistration_objects db)
  ∧ NoDup ((λ r, (event r, user r)) <$> EventRegistration_objects db).

Global Instance db_ok_dec db : Decision (db_ok db).
Proof. unfold db_ok. apply _. Defined.

(** [event.delete()]: the row goes, and with it every registration whose
    [event] points to it ([on_delete=models.CASCADE]). *)
Definition delete_event (db : DB) (pk : Z) : DB :=
  {| Event_objects := base.delete pk (Event_objects db);
     EventRegistration_objects :=
       filter (λ r, event r ≠ pk) (EventRegistration_objects db);
     next_id := next_id db |}.

(** The validators of [max_participants]: [MinValueValidator(1)], which
    a null value skips. *)
Definition max_participants_valid (m : option nat) : bool :=
  match m with
  | None => true
  | Some n => bool_decide (1 ≤ n)
  end.

(** [EventRegistration.objects.filter(user=user)], in the default
    ordering of the model. *)
Definition filter_user (db : DB) (u : Z) : list EventRegistration :=
  merge_sort newest_first
    (filter (λ r, user r = u) (EventRegistration_objects db)).

End models.

(** ** events/serializers.py *)

Module serializers.
Import models.
Local Open Scope string_scope.

(** [EventRegistrationCreateSerializer.validate_event_id]; [inl msg] is
    [raise serializers.ValidationError(msg)], [request_user] is [None] for an
    anonymous request. *)
Definition validate_event_id (db : DB) (now : Z) (request_user : option Z)
    (value : Z) : string + Z :=
  match Event_objects db !! value with
  | None => inl "Event does not exist."
  | Some event =>
    if is_past event now then inl "Cannot register for past events."
    else if is_full db value event then inl "Event is full."
    else
      match request_user with
      | Some u =>
        if exists_ (filter_event_user db value u)
        then inl "You are already registered for this event."
        else inr value
      | None => inr value
      end
  end.

(** [EventRegistrationCreateSerializer.create] *)
Definition create (db : DB) (stamp : Z) (request_user : Z) (event_id : Z)
  : Exn + (EventRegistration * DB) :=
  match Event_objects db !! event_id with
  | None => inl Event_DoesNotExist
  | Some _ => objects_create db stamp event_id request_user
  end.

(** [EventSerializer.validate_date]; [now] is the value of
    [timezone.now()]. *)
Definition validate_date (now : Z) (value : Z) : string + Z :=
  if bool_decide (value < now)%Z
  then inl "Event date cannot be in the past."
  else inr value.

(** [EventSerializer.get_is_registered]; [request_user] is [None] for an
    anonymous request. *)
Definition get_is_registered (db : DB) (request_user : option Z) (obj : Z)
  : bool :=
  match request_user with
  | Some u => exists_ (filter_event_user db obj u)
  | None => false
  end.

(** The fields that [EventSerializer] computes when it shows an event:
    [registered_count], [is_full], [is_past] and [is_registered]. *)
Record Computed := {
  shown_registered_count : nat;
  shown_is_full : bool;
  shown_is_past : bool;
  shown_is_registered : bool
}.

Definition computed_fields (db : DB) (now : Z) (request_user : option Z)
    (pk : Z) (obj : Event) : Computed :=
  {| shown_registered_count := registered_count db pk;
     shown_is_full := is_full db pk obj;
     shown_is_past := is_past obj now;
     shown_is_registered := get_is_registered db request_user pk |}.

End serializers.

(** ** events/permissions.py *)

Module permissions.
Import models.

Inductive Method := GET | HEAD | OPTIONS | POST | PUT | PATCH | DELETE.

Global Instance Method_eq_dec : EqDecision Method.
Proof. solve_decision. Defined.

(** [permissions.SAFE_METHODS] *)
Definition SAFE_METHODS : list Method := [GET; HEAD; OPTIONS].

(** [IsOwnerOrReadOnly.has_permission] *)
Definition has_permission (method : Method) (request_user : option Z)
  : bool :=
  if bool_decide (method ∈ SAFE_METHODS) then true
  else
    match request_user with
    | Some _ => true
    | None => false
    end.

(** [IsOwnerOrReadOnly.has_object_permission]; an anonymous user equals
    no organizer. *)
Definition has_object_permission (method : Method)
    (request_user : option Z) (obj : Event) : bool :=
  if bool_decide (method ∈ SAFE_METHODS) then true
  else bool_decide (request_user = Some (organizer obj)).

End permissions.

(** ** events/views.py: the actions [register], [unregister] and
    [registrations] of [EventViewSet] *)

Module views.
Import models serializers.
Local Open Scope string_scope.

(** Payload of a [Response]. *)
Inductive Body :=
| RegistrationData (r : EventRegistration)
| RegistrationList (rs : list EventRegistration)
| FieldErrors (field : string) (msgs : list string)
| MessageData (m : string)
| ErrorData (m : string).

Record Response := { data : Body; status : Z }.

Definition HTTP_200_OK : Z := 200.
Definition HTTP_201_CREATED : Z := 201.
Definition HTTP_400_BAD_REQUEST : Z := 400.
Definition HTTP_401_UNAUTHORIZED : Z := 401.
Definition HTTP_403_FORBIDDEN : Z := 403.
Definition HTTP_404_NOT_FOUND : Z := 404.
Definition HTTP_500_INTERNAL_SERVER_ERROR : Z := 500.

Inductive Outcome :=
| Returned (r : Response)
| Raised (e : Exn).

(** Status the client receives. [Http404] and [NotAuthenticated] are
    turned into responses by the framework, with the statuses that the
    actions declare ([404: 'Event not found'],
    [401: 'Authentication required']); any other exception that leaves a
    view is a server error. *)
Definition status_code (o : Outcome) : Z :=
  match o with
  | Returned r => status r
  | Raised Http404 => HTTP_404_NOT_FOUND
  | Raised NotAuthenticated => HTTP_401_UNAUTHORIZED
  | Raised _ => HTTP_500_INTERNAL_SERVER_ERROR
  end.

(** What a request reads from outside the database: the clock at the
    admission check ([now]), the clock when the row is written ([stamp])
    and what [send_mail] does ([None]: delivered, [Some e]: raises an
    exception that prints as [e]). *)
Record Env := {
  now : Z;
  stamp : Z;
  smtp_error : option string
}.

(** Everything the actions can change: the database, the standard
    output, and the mails handed to the transport, as (event, user). *)
Record World := {
  db : DB;
  stdout : list string;
  outbox : list (Z * Z)
}.

Definition set_db (w : World) (d : DB) : World :=
  {| db := d; stdout := stdout w; outbox := outbox w |}.

(** [self.get_object()], for a request whose query string carries no
    filter or search parameter: the row with that primary key, or
    [Http404]. The object permission of [IsAuthenticated] grants every
    object. *)
Definition get_object (d : DB) (pk : Z) : Exn + Event :=
  match Event_objects d !! pk with
  | None => inl Http404
  | Some e => inr e
  end.

(** [send_registration_email] under the [try ... except Exception] of
    [register]. *)
Definition try_send_registration_email (w : World) (env : Env) (pk u : Z)
  : World :=
  match smtp_error env with
  | None =>
    {| db := db w; stdout := stdout w; outbox := outbox w ++ [(pk, u)] |}
  | Some e =>
    {| db := db w; stdout := stdout w ++ ["Failed to send email: " ++ e];
       outbox := outbox w |}
  end.

(** First half of [register]: [IsAuthenticated], [get_object], and
    [serializer.is_valid()]. [inl] is the outcome that ends the request,
    [inr (u, event_id)] the authenticated user and the validated data. *)
Definition register_is_valid (d : DB) (now : Z) (request_user : option Z)
    (pk : Z) : Outcome + (Z * Z) :=
  match request_user with
  | None => inl (Raised NotAuthenticated)
  | Some u =>
    match get_object d pk with
    | inl e => inl (Raised e)
    | inr _ =>
      match validate_event_id d now (Some u) pk with
      | inl msg =>
        inl (Returned {| data := FieldErrors "event_id" [msg];
                         status := HTTP_400_BAD_REQUEST |})
      | inr event_id => inr (u, event_id)
      end
    end
  end.

(** Second half of [register]: [serializer.save()], the notification,
    and the response. *)
Definition register_save (w : World) (env : Env) (pk u event_id : Z)
  : Outcome * World :=
  match create (db w) (stamp env) u event_id with
  | inl e => (Raised e, w)
  | inr (registration, d) =>
    (Returned {| data := RegistrationData registration;
                 status := HTTP_201_CREATED |},
     try_send_registration_email (set_db w d) env pk u)
  end.

Definition register (w : World) (env : Env) (request_user : option Z)
    (pk : Z) : Outcome * World :=
  match register_is_valid (db w) (now env) request_user pk with
  | inl o => (o, w)
  | inr (u, event_id) => register_save w env pk u event_id
  end.

Definition unregister (w : World) (request_user : option Z) (pk : Z)
  : Outcome * World :=
  match request_user with
  | None => (Raised NotAuthenticated, w)
  | Some u =>
    match get_object (db w) pk with
    | inl e => (Raised e, w)
    | inr _ =>
      match get (filter_event_user (db w) pk u) with
      | inr registration =>
        (Returned {| data := MessageData "Successfully unregistered from event";
                     status := HTTP_200_OK |},
         set_db w (delete (db w) registration))
      | inl EventRegistration_DoesNotExist =>
        (Returned {| data := ErrorData "You are not registered for this event";
                     status := HTTP_404_NOT_FOUND |}, w)
      | inl e => (Raised e, w)
      end
    end
  end.

Definition registrations (w : World) (request_user : option Z) (pk : Z)
  : Outcome :=
  match request_user with
  | None => Raised NotAuthenticated
  | Some u =>
    match get_object (db w) pk with
    | inl e => Raised e
    | inr event =>
      if bool_decide (organizer event ≠ u) then
        Returned {| data := ErrorData "Only the organizer can view registrations";
                    status := HTTP_403_FORBIDDEN |}
      else
        Returned {| data := RegistrationList (filter_event (db w) pk);
                    status := HTTP_200_OK |}
    end
  end.


(** [EventFilter.filter_upcoming]; [value] is the tri-state of a
    [BooleanFilter]. *)
Definition filter_upcoming (now : Z) (queryset : list (Z * Event))
    (value : option bool) : list (Z * Event) :=
  match value with
  | Some true => filter (λ row, (now ≤ date (snd row))%Z) queryset
  | _ => queryset
  end.

(** [EventRegistrationViewSet]: [IsAuthenticated], then
    [get_queryset]. *)
Definition get_queryset (w : World) (request_user : option Z)
  : Exn + list EventRegistration :=
  match request_user with
  | None => inl NotAuthenticated
  | Some u => inr (filter_user (db w) u)
  end.

(** How a [destroy] request ends: [Response(status=204)], an exception
    of the kind the other actions raise, or [PermissionDenied]. *)
Inductive DestroyOutcome :=
| NoContent
| DestroyRaised (e : Exn)
| PermissionDenied.

(** The [destroy] action that [EventViewSet] inherits, under its
    [permission_classes = [IsOwnerOrReadOnly]]: the permission of the
    request, [get_object] with the permission on the object, then
    [instance.delete()]. *)
Definition destroy (w : World) (request_user : option Z) (pk : Z)
  : DestroyOutcome * World :=
  if negb (permissions.has_permission permissions.DELETE request_user)
  then (DestroyRaised NotAuthenticated, w)
  else
    match get_object (db w) pk with
    | inl e => (DestroyRaised e, w)
    | inr instance =>
      if negb (permissions.has_object_permission
                 permissions.DELETE request_user instance)
      then (PermissionDenied, w)
      else (NoContent, set_db w (delete_event (db w) pk))
    end.

End views.

(** ** The failures of the registration protocol *)

Module taxonomy.
Import models serializers views.
Local Open Scope string_scope.

Inductive Error :=
| NotFound
| Closed
| AlreadyRegistered
| Full
| NotRegistered
| Forbidden
| Unauthenticated.

Global Instance Error_eq_dec : EqDecision Error.
Proof. solve_decision. Defined.

(** The outcome with which the actions report each failure: the branch
    of [register], [unregister] or [registrations] (or of
    [validate_event_id], whose message [register] returns under the
    field name) taken in that case. *)
Definition failure (e : Error) : Outcome :=
  match e with
  | NotFound => Raised Http404
  | Closed =>
    Returned {| data := FieldErrors "event_id"
                          ["Cannot register for past events."];
                status := HTTP_400_BAD_REQUEST |}
  | AlreadyRegistered =>
    Returned {| data := FieldErrors "event_id"
                          ["You are already registered for this event."];
                status := HTTP_400_BAD_REQUEST |}
  | Full =>
    Returned {| data := FieldErrors "event_id" ["Event is full."];
                status := HTTP_400_BAD_REQUEST |}
  | NotRegistered =>
    Returned {| data := ErrorData "You are not registered for this event";
                status := HTTP_404_NOT_FOUND |}
  | Forbidden =>
    Returned {| data := ErrorData "Only the organizer can view registrations";
                status := HTTP_403_FORBIDDEN |}
  | Unauthenticated => Raised NotAuthenticated
  end.

(** Two failures that no status code tells apart. *)
Definition same_class (e1 e2 : Error) : bool :=
  match e1, e2 with
  | (Closed | AlreadyRegistered | Full), (Closed | AlreadyRegistered | Full)
  | (NotFound | NotRegistered), (NotFound | NotRegistered)
  | Forbidden, Forbidden
  | Unauthenticated, Unauthenticated => true
  | _, _ => false
  end.

End taxonomy.

(** ** Sequences of calls, one after another *)

Module calls.
Import models views.

Inductive Call :=
| CallRegister (env : Env) (request_user : option Z) (pk : Z)
| CallUnregister (request_user : option Z) (pk : Z).

Definition perform (w : World) (c : Call) : Outcome * World :=
  match c with
  | CallRegister env request_user pk => register w env request_user pk
  | CallUnregister request_user pk => unregister w request_user pk
  end.

(** The outcomes of the calls, in order, and the world they leave. *)
Fixpoint perform_all (w : World) (cs : list Call) : list Outcome * World :=
  match cs with
  | [] => ([], w)
  | c :: cs =>
    let (o, w1) := perform w c in
    let (os, w2) := perform_all w1 cs in
    (o :: os, w2)
  end.

End calls.

(** ** Interleaved [register] requests

    [register] opens no transaction and takes no lock: its admission
    check ([serializer.is_valid()]) and its insertion
    ([serializer.save()]) are separate database accesses, so another
    request can run between them. A task is a [register] request at one
    of these two points, and a schedule says which task moves next. *)

Module schedule.
Import models views.

Inductive Task :=
| Pending (env : Env) (request_user : option Z) (pk : Z)
| Validated (env : Env) (pk u event_id : Z)
| Finished (o : Outcome).

Definition advance (w : World) (t : Task) : Task * World :=
  match t with
  | Pending env request_user pk =>
    match register_is_valid (db w) (now env) request_user pk with
    | inl o => (Finished o, w)
    | inr (u, event_id) => (Validated env pk u event_id, w)
    end
  | Validated env pk u event_id =>
    let (o, w') := register_save w env pk u event_id in (Finished o, w')
  | Finished o => (Finished o, w)
  end.

Record Config := {
  world : World;
  tasks : list Task
}.

(** Task [i] makes its next database access. *)
Definition step (c : Config) (i : nat) : Config :=
  match tasks c !! i with
  | None => c
  | Some t =>
    let (t', w') := advance (world c) t in
    {| world := w'; tasks := <[i := t']> (tasks c) |}
  end.

Fixpoint run (c : Config) (sched : list nat) : Config :=
  match sched with
  | [] => c
  | i :: sched => run (step c i) sched
  end.

(** The task has finished with a registration of user [u] for event
    [pk]. *)
Definition accepted (pk u : Z) (t : Task) : bool :=
  match t with
  | Finished (Returned r) =>
    match data r with
    | RegistrationData row => bool_decide (event row = pk ∧ user row = u)
    | _ => false
    end
  | _ => false
  end.

End schedule.

(** ** accounts/views.py: [login_view] and [logout_view]

    The token table maps a user to the key of the token of that user
    ([Token.user] is one-to-one). *)

Module accounts.
Import models.
Local Open Scope string_scope.

(** Payload of a [Response]; of [UserSerializer(user).data] the primary
    key is kept. *)
Inductive Body :=
| LoginData (token : string) (user : Z) (message : string)
| MessageData (m : string)
| ErrorData (m : string).

Record Response := { data : Body; status : Z }.

(** [not x] for a value of [request.data.get(...)] that is absent, null
    or a string. *)
Definition not_ (x : option string) : bool :=
  match x with
  | None => true
  | Some s => bool_decide (s = "")
  end.

(** [Token.objects.get_or_create(user=user)]; [fresh] is the key that a
    new token generates for itself. *)
Definition get_or_create (tokens : gmap Z string) (fresh : string) (u : Z)
  : string * gmap Z string :=
  match tokens !! u with
  | Some key => (key, tokens)
  | None => (fresh, <[u := fresh]> tokens)
  end.

(** [login_view]; [authenticate username password] is the user that
    [django.contrib.auth.authenticate] returns, if any. *)
Definition login_view (authenticate : string → string → option Z)
    (fresh : string) (tokens : gmap Z string)
    (username password : option string) : Response * gmap Z string :=
  if not_ username || not_ password then
    ({| data := ErrorData "Username and password are required";
        status := 400 |}, tokens)
  else
    match username, password with
    | Some name, Some pass =>
      match authenticate name pass with
      | Some u =>
        let (key, tokens') := get_or_create tokens fresh u in
        ({| data := LoginData key u "Login successful"; status := 200 |},
         tokens')
      | None =>
        ({| data := ErrorData "Invalid credentials"; status := 401 |},
         tokens)
      end
    | _, _ => ({| data := ErrorData "Username and password are required";
                  status := 400 |}, tokens)
    end.


End accounts.

(** ** Sample data *)

Module examples.
Import models views calls schedule.
Local Open Scope string_scope.
Local Open Scope Z_scope.

(** One seat, starts at 100. *)
Definition conference : Event :=
  {| date := 100; organizer := 7; max_participants := Some 1%nat |}.

(** No limit, started at 5. *)
Definition meetup : Event :=
  {| date := 5; organizer := 7; max_participants := None |}.

(** Two seats, starts at 10. *)
Definition workshop : Event :=
  {| date := 10; organizer := 8; max_participants := Some 2%nat |}.

Definition db_empty : DB :=
  {| Event_objects := {[ 1 := conference; 2 := meetup; 3 := workshop ]};
     EventRegistration_objects := [];
     next_id := 1 |}.

(** User 10 holds the only seat of the conference and has signed up for
    the meetup; users 10 and 11 have signed up for the workshop. *)
Definition db_busy : DB :=
  {| Event_objects := {[ 1 := conference; 2 := meetup; 3 := workshop ]};
     EventRegistration_objects :=
       [ {| id := 1; event := 1; user := 10; registered_at := 2 |};
         {| id := 2; event := 2; user := 10; registered_at := 3 |};
         {| id := 3; event := 3; user := 11; registered_at := 4 |};
         {| id := 4; event := 3; user := 10; registered_at := 6 |} ];
     next_id := 5 |}.

(** User 10 has signed up for the workshop, which has one seat left. *)
Definition db_one_seat_left : DB :=
  {| Event_objects := {[ 1 := conference; 2 := meetup; 3 := workshop ]};
     EventRegistration_objects :=
       [ {| id := 1; event := 3; user := 10; registered_at := 2 |} ];
     next_id := 2 |}.

(** The workshop with six seats. *)
Definition big_workshop : Event :=
  {| date := 10; organizer := 8; max_participants := Some 6%nat |}.

(** As [db_busy], after the organizer of the workshop has raised its
    limit to six. *)
Definition db_raised_limit : DB :=
  {| Event_objects := {[ 1 := conference; 2 := meetup; 3 := big_workshop ]};
     EventRegistration_objects := EventRegistration_objects db_busy;
     next_id := 5 |}.

Definition world_of (d : DB) : World :=
  {| db := d; stdout := []; outbox := [] |}.

Definition at_10 : Env :=
  {| now := 10; stamp := 11; smtp_error := None |}.

Definition at_10_mail_down : Env :=
  {| now := 10; stamp := 11; smtp_error := Some "Connection refused" |}.

(** The only account: user 10, alice. *)
Definition authenticate (username password : string) : option Z :=
  if bool_decide (username = "alice" ∧ password = "wonderland")
  then Some 10
  else None.

(** User 11 holds a token, user 10 does not. *)
Definition tokens_of_11 : gmap Z string := {[ 11 := "9944b09199c6" ]}.

(** The clock reads 4, before the meetup. *)
Definition at_4 : Env :=
  {| now := 4; stamp := 4; smtp_error := None |}.

Definition three_requests : list (Env * Z) :=
  [(at_4, 11); (at_4, 12); (at_4, 13)].

Definition five_calls : list Call :=
  [CallRegister at_10 (Some 11) 1;
   CallUnregister (Some 10) 1;
   CallRegister at_10 (Some 12) 1;
   CallRegister at_10 (Some 11) 1;
   CallRegister at_10 (Some 10) 3].


(** User 10 asks twice to sign up for the workshop. *)
Definition double_submit : Config :=
  {| world := world_of db_empty;
     tasks := [Pending at_10 (Some 10) 3; Pending at_10 (Some 10) 3] |}.

End examples.

(** * Properties *)

Import models serializers views taxonomy calls schedule.

(** ** Queries *)

Lemma exists_false (qs : list EventRegistration) :
  exists_ qs = false ↔ qs = [].
Proof. destruct qs; naive_solver. Qed.

Lemma exists_true (qs : list EventRegistration) :
  exists_ qs = true ↔ ∃ r, r ∈ qs.
Proof.
  destruct qs as [|r qs]; simpl.
  - split; [done | intros [r Hr]; by apply not_elem_of_nil in Hr].
  - split; [intros _; exists r; left | done].
Qed.

Lemma get_object_lookup (d : DB) (pk : Z) (e : Event) :
  Event_objects d !! pk = Some e → get_object d pk = inr e.
Proof. unfold get_object. by intros ->. Qed.

(** ** [register], one case per branch *)

Lemma register_unfold (w : World) (env : Env) (u pk : Z) :
  register w env (Some u) pk =
  match Event_objects (db w) !! pk with
  | None => (failure NotFound, w)
  | Some e =>
    if is_past e (now env) then (failure Closed, w)
    else if is_full (db w) pk e then (failure Full, w)
    else if exists_ (filter_event_user (db w) pk u)
    then (failure AlreadyRegistered, w)
    else
      let r := new_row (db w) (stamp env) pk u in
      (Returned {| data := RegistrationData r; status := HTTP_201_CREATED |},
       try_send_registration_email (set_db w (insert_row (db w) r)) env pk u)
  end.
Proof.
  unfold register, register_is_valid, get_object, validate_event_id.
  destruct (Event_objects (db w) !! pk) as [e|] eqn:He; [|done].
  destruct (is_past e (now env)); [done|].
  destruct (is_full (db w) pk e); [done|].
  destruct (exists_ (filter_event_user (db w) pk u)) eqn:Hex; [done|].
  unfold register_save, create, objects_create. by rewrite He, Hex.
Qed.

Lemma register_anonymous (w : World) (env : Env) (pk : Z) :
  register w env None pk = (failure Unauthenticated, w).
Proof. done. Qed.

Lemma failure_inj (e1 e2 : Error) : failure e1 = failure e2 → e1 = e2.
Proof. destruct e1, e2; simpl; intros H; (done || discriminate H). Qed.

(** ** C3: the order of the admission checks *)

(** C3, as stated, fails: a caller who already holds a registration for an
    event that is at capacity (and has not started) is not told
    [AlreadyRegistered]. User 10 holds the only seat of the conference;
    signing up again is answered with "Event is full." *)
Lemma register_duplicate_at_capacity_is_not_already_registered :
  ¬ (∀ (w : World) (env : Env) (u pk : Z) (e : Event),
       Event_objects (db w) !! pk = Some e →
       is_past e (now env) = false →
       exists_ (filter_event_user (db w) pk u) = true →
       is_full (db w) pk e = true →
       fst (register w env (Some u) pk) = failure AlreadyRegistered).
Proof.
  intros H.
  specialize (H (examples.world_of examples.db_busy) examples.at_10
                10%Z 1%Z examples.conference
                eq_refl eq_refl eq_refl eq_refl).
  vm_compute in H. discriminate H.
Qed.

(** C3 (amended): [register] checks NotFound, then Closed, then Full, then
    AlreadyRegistered, and admits the caller when none applies; the four
    failures are distinct outcomes and leave the world as it was. In
    particular a caller already registered for an event that is at
    capacity and has not started is told Full. *)
Theorem register_precondition_order (w : World) (env : Env) (u pk : Z) :
  register w env (Some u) pk =
    match Event_objects (db w) !! pk with
    | None => (failure NotFound, w)
    | Some e =>
      if is_past e (now env) then (failure Closed, w)
      else if is_full (db w) pk e then (failure Full, w)
      else if exists_ (filter_event_user (db w) pk u)
      then (failure AlreadyRegistered, w)
      else
        let r := new_row (db w) (stamp env) pk u in
        (Returned {| data := RegistrationData r;
                     status := HTTP_201_CREATED |},
         try_send_registration_email
           (set_db w (insert_row (db w) r)) env pk u)
    end
  ∧ (∀ e, Event_objects (db w) !! pk = Some e →
          is_past e (now env) = false →
          is_full (db w) pk e = true →
          exists_ (filter_event_user (db w) pk u) = true →
          register w env (Some u) pk = (failure Full, w))
  ∧ NoDup (failure <$> [NotFound; Closed; Full; AlreadyRegistered]).
Proof.
  split; [apply register_unfold|]. split.
  - intros e He Hpast Hfull _. by rewrite register_unfold, He, Hpast, Hfull.
  - apply (NoDup_fmap_2_strong failure); [|by apply (bool_decide_unpack _)].
    intros e1 e2 _ _. apply failure_inj.
Qed.

(** ** C4: no admission to an event that has started *)

(** C4, as stated, fails when the start time equals the admission time:
    such an event is not strictly in the future, yet [is_past] is false
    and [register] admits the caller. The workshop starts at 10 and user
    12 signs up at 10. *)
Lemma register_at_start_time_is_not_closed :
  ¬ (∀ (w : World) (env : Env) (u pk : Z) (e : Event),
       Event_objects (db w) !! pk = Some e →
       ¬ (now env < date e)%Z →
       fst (register w env (Some u) pk) = failure Closed).
Proof.
  intros H.
  assert (Hnot : ¬ (now examples.at_10 < date examples.workshop)%Z)
    by (simpl; lia).
  specialize (H (examples.world_of examples.db_empty) examples.at_10
                12%Z 3%Z examples.workshop eq_refl Hnot).
  vm_compute in H. discriminate H.
Qed.

(** C4 (amended): for every event whose start time is strictly earlier
    than the admission time, [register] fails with Closed and changes
    nothing, whatever the capacity and whether or not the caller is
    registered; a successful [register] requires the start time not to
    be earlier than the admission time. *)
Theorem register_closed_when_started (w : World) (env : Env) (u pk : Z)
    (e : Event) :
  Event_objects (db w) !! pk = Some e →
  ((date e < now env)%Z → register w env (Some u) pk = (failure Closed, w))
  ∧ (status_code (fst (register w env (Some u) pk)) = HTTP_201_CREATED →
     (now env ≤ date e)%Z).
Proof.
  intros He. rewrite register_unfold, He. unfold is_past. split.
  - intros Hlt. by rewrite bool_decide_eq_true_2.
  - case_bool_decide as Hlt; [discriminate|]. intros _. lia.
Qed.

(** The meetup started at 5; at 10 user 10, who is registered for it, and
    anyone else is refused with Closed. *)
Lemma register_closed_when_started_witness :
  register (examples.world_of examples.db_busy) examples.at_10 (Some 10%Z) 2%Z
  = (failure Closed, examples.world_of examples.db_busy).
Proof.
  apply (register_closed_when_started _ _ _ _ examples.meetup); [reflexivity|].
  vm_compute. reflexivity.
Defined.

(** ** C8: status codes of the failures *)

Lemma unregister_anonymous (w : World) (pk : Z) :
  unregister w None pk = (failure Unauthenticated, w).
Proof. done. Qed.

Lemma unregister_no_event (w : World) (u pk : Z) :
  Event_objects (db w) !! pk = None →
  unregister w (Some u) pk = (failure NotFound, w).
Proof. unfold unregister, get_object. by intros ->. Qed.

Lemma registrations_no_event (w : World) (u pk : Z) :
  Event_objects (db w) !! pk = None →
  registrations w (Some u) pk = failure NotFound.
Proof. unfold registrations, get_object. by intros ->. Qed.

(** C8, as stated, fails: Closed and Full are distinct failures of
    [register] with the same status code. At time 10 user 12 is refused
    the meetup (started at 5) and the conference (its only seat taken),
    both times with status 400. *)
Lemma closed_and_full_share_a_status_code :
  ¬ (∀ (w : World) (env : Env) (u pk1 pk2 : Z) (e1 e2 : Error),
       fst (register w env (Some u) pk1) = failure e1 →
       fst (register w env (Some u) pk2) = failure e2 →
       e1 ≠ e2 →
       status_code (fst (register w env (Some u) pk1))
       ≠ status_code (fst (register w env (Some u) pk2))).
Proof.
  intros H.
  apply (H (examples.world_of examples.db_busy) examples.at_10
           12%Z 2%Z 1%Z Closed Full); by vm_compute.
Qed.

(** C8 (amended): every typed failure has a fixed status code: 404 for
    NotFound and NotRegistered, 400 for Closed, AlreadyRegistered and
    Full, 403 for Forbidden, 401 for Unauthenticated. Two failures have
    the same status code exactly when both are among Closed,
    AlreadyRegistered and Full, or both among NotFound and NotRegistered;
    these are told apart by the body of the response only, which differs
    for any two distinct failures. The three actions report a missing
    caller identity as Unauthenticated and a missing event as NotFound. *)
Theorem failure_status_codes :
  status_code <$> (failure <$> [NotFound; NotRegistered; Closed;
                                AlreadyRegistered; Full; Forbidden;
                                Unauthenticated])
    = [HTTP_404_NOT_FOUND; HTTP_404_NOT_FOUND; HTTP_400_BAD_REQUEST;
       HTTP_400_BAD_REQUEST; HTTP_400_BAD_REQUEST; HTTP_403_FORBIDDEN;
       HTTP_401_UNAUTHORIZED]
  ∧ (∀ e1 e2, status_code (failure e1) = status_code (failure e2)
              ↔ same_class e1 e2 = true)
  ∧ (∀ e1 e2, e1 ≠ e2 → failure e1 ≠ failure e2)
  ∧ (∀ w env pk,
       fst (register w env None pk) = failure Unauthenticated
       ∧ fst (unregister w None pk) = failure Unauthenticated
       ∧ registrations w None pk = failure Unauthenticated)
  ∧ (∀ w env u pk,
       Event_objects (db w) !! pk = None →
       fst (register w env (Some u) pk) = failure NotFound
       ∧ fst (unregister w (Some u) pk) = failure NotFound
       ∧ registrations w (Some u) pk = failure NotFound).
Proof.
  split; [reflexivity|]. split; [|split; [|split]].
  - intros e1 e2. destruct e1, e2; vm_compute; split; congruence.
  - intros e1 e2 Hne Heq. by apply Hne, failure_inj.
  - done.
  - intros w env u pk He.
    rewrite register_unfold, He, unregister_no_event, registrations_no_event;
      done.
Qed.

(** ** What the actions do to the database *)

Lemma db_try_send_registration_email (w : World) (env : Env) (pk u : Z) :
  db (try_send_registration_email w env pk u) = db w.
Proof. unfold try_send_registration_email. by destruct (smtp_error env). Qed.

(** [register] either refuses and changes nothing, or admits the caller
    after every check has passed and inserts one row. *)
Lemma register_effect (w : World) (env : Env) (request_user : option Z)
    (pk : Z) :
  (snd (register w env request_user pk) = w
   ∧ status_code (fst (register w env request_user pk)) ≠ HTTP_201_CREATED)
  ∨ (∃ u e,
       request_user = Some u
       ∧ Event_objects (db w) !! pk = Some e
       ∧ is_past e (now env) = false
       ∧ is_full (db w) pk e = false
       ∧ exists_ (filter_event_user (db w) pk u) = false
       ∧ fst (register w env request_user pk)
         = Returned {| data := RegistrationData
                                 (new_row (db w) (stamp env) pk u);
                       status := HTTP_201_CREATED |}
       ∧ db (snd (register w env request_user pk))
         = insert_row (db w) (new_row (db w) (stamp env) pk u)).
Proof.
  destruct request_user as [u|]; [|by left].
  rewrite register_unfold.
  destruct (Event_objects (db w) !! pk) as [e|] eqn:He; [|by left].
  destruct (is_past e (now env)) eqn:Hpast; [by left|].
  destruct (is_full (db w) pk e) eqn:Hfull; [by left|].
  destruct (exists_ (filter_event_user (db w) pk u)) eqn:Hex; [by left|].
  right. exists u, e. simpl. by rewrite db_try_send_registration_email.
Qed.

(** [unregister] either changes nothing or deletes the row it found. *)
Lemma unregister_effect (w : World) (request_user : option Z) (pk : Z) :
  snd (unregister w request_user pk) = w
  ∨ (∃ u r,
       request_user = Some u
       ∧ filter_event_user (db w) pk u = [r]
       ∧ unregister w request_user pk
         = (Returned {| data := MessageData
                                  "Successfully unregistered from event";
                        status := HTTP_200_OK |},
            set_db w (delete (db w) r))).
Proof.
  unfold unregister. destruct request_user as [u|]; [|by left].
  destruct (get_object (db w) pk); [by left|].
  destruct (filter_event_user (db w) pk u) as [|r [|r' qs]] eqn:Hqs; simpl.
  - by left.
  - right. by exists u, r.
  - by left.
Qed.

Lemma registered_count_insert_row (d : DB) (r : EventRegistration) (pk : Z) :
  registered_count (insert_row d r) pk
  = (registered_count d pk + (if decide (event r = pk) then 1 else 0))%nat.
Proof.
  unfold registered_count, event_registrations, insert_row. simpl.
  rewrite filter_app, length_app, filter_singleton; [|exact []].
  destruct (decide (event r = pk)); simpl; lia.
Qed.




Lemma perform_events (w : World) (c : Call) :
  Event_objects (db (snd (perform w c))) = Event_objects (db w).
Proof.
  destruct c as [env ru pk|ru pk]; simpl.
  - destruct (register_effect w env ru pk)
      as [[-> _]|(u & e & _ & _ & _ & _ & _ & _ & ->)]; done.
  - destruct (unregister_effect w ru pk) as [->|(u & r & _ & _ & ->)]; done.
Qed.


Lemma perform_all_cons (w : World) (c : Call) (cs : list Call) :
  perform_all w (c :: cs)
  = (fst (perform w c) :: fst (perform_all (snd (perform w c)) cs),
     snd (perform_all (snd (perform w c)) cs)).
Proof.
  simpl. destruct (perform w c) as [o w1]. simpl.
  by destruct (perform_all w1 cs).
Qed.

(** ** C1: the capacity is never exceeded *)



(** ** C5: the list of registrations *)

(** C5: for an existing event, [registrations] answers a caller who is
    not its organizer with Forbidden; it answers the organizer with the
    registrations of that event, all of them and no others, most
    recently created first. *)
Theorem registrations_organizer_only (w : World) (u pk : Z) (e : Event) :
  Event_objects (db w) !! pk = Some e →
  (organizer e ≠ u → registrations w (Some u) pk = failure Forbidden)
  ∧ (organizer e = u →
     ∃ rs,
       registrations w (Some u) pk
       = Returned {| data := RegistrationList rs; status := HTTP_200_OK |}
       ∧ rs ≡ₚ filter (λ r, event r = pk) (EventRegistration_objects (db w))
       ∧ Sorted (λ a b, (registered_at b ≤ registered_at a)%Z) rs).
Proof.
  intros He. unfold registrations. rewrite (get_object_lookup _ _ _ He).
  split; intros Hu.
  - by rewrite bool_decide_eq_true_2.
  - rewrite bool_decide_eq_false_2 by (by intros []).
    exists (filter_event (db w) pk). split; [done|]. split.
    + apply merge_sort_Permutation.
    + apply (Sorted_merge_sort newest_first).
Qed.

(** User 8 organizes the workshop and sees its two registrations, the
    one written at 6 before the one written at 4; user 7 does not
    organize it. *)
Lemma registrations_organizer_only_witness :
  registrations (examples.world_of examples.db_busy) (Some 7%Z) 3%Z
  = failure Forbidden
  ∧ ∃ rs,
      registrations (examples.world_of examples.db_busy) (Some 8%Z) 3%Z
      = Returned {| data := RegistrationList rs; status := HTTP_200_OK |}
      ∧ rs = [ {| id := 4; event := 3; user := 10; registered_at := 6 |};
               {| id := 3; event := 3; user := 11; registered_at := 4 |} ]
      ∧ Sorted (λ a b, (registered_at b ≤ registered_at a)%Z) rs.
Proof.
  split.
  - apply (registrations_organizer_only
             (examples.world_of examples.db_busy) 7%Z 3%Z
             examples.workshop eq_refl).
    vm_compute. discriminate.
  - destruct (registrations_organizer_only
                (examples.world_of examples.db_busy) 8%Z 3%Z
                examples.workshop eq_refl) as [_ H].
    destruct (H eq_refl) as (rs & Heq & _ & Hsorted).
    exists rs. split; [exact Heq|]. split; [|exact Hsorted].
    vm_compute in Heq. by injection Heq as <-.
Defined.

(** ** What the schema guarantees *)

Lemma NoDup_fmap_eq {A B} (f : A → B) (l : list A) (x y : A) :
  NoDup (f <$> l) → x ∈ l → y ∈ l → f x = f y → x = y.
Proof.
  induction l as [|a l IH]; simpl.
  - by intros _ ?%not_elem_of_nil.
  - rewrite NoDup_cons, !elem_of_cons.
    intros [Ha Hl] [->|Hx] [->|Hy] Hf; try done.
    + destruct Ha. rewrite Hf. by apply list_elem_of_fmap_2.
    + destruct Ha. rewrite <- Hf. by apply list_elem_of_fmap_2.
    + by apply IH.
Qed.

Lemma filter_ext_elem_of {A} (P Q : A → Prop)
    `{!∀ x, Decision (P x), !∀ x, Decision (Q x)} (l : list A) :
  (∀ x, x ∈ l → P x ↔ Q x) → filter P l = filter Q l.
Proof.
  induction l as [|a l IH]; intros HPQ; [done|].
  rewrite !filter_cons, IH by (intros x Hx; apply HPQ; by right).
  apply decide_ext, HPQ. by left.
Qed.

(** Under [unique_together] a pair has at most one row, so [get] finds
    the row whenever [exists] says there is one. *)
Lemma get_of_exists (d : DB) (pk u : Z) :
  db_ok d →
  exists_ (filter_event_user d pk u) = true →
  ∃ r, filter_event_user d pk u = [r]
       ∧ r ∈ EventRegistration_objects d ∧ event r = pk ∧ user r = u.
Proof.
  intros (Hid & _ & Hpair) Hex.
  destruct (filter_event_user d pk u) as [|r1 [|r2 qs]] eqn:Hqs; [done| |].
  - exists r1. split; [done|].
    assert (r1 ∈ filter_event_user d pk u) as Hin by (rewrite Hqs; left).
    apply list_elem_of_filter in Hin as [[He Hu] Hin]. done.
  - exfalso.
    assert (r1 ∈ filter_event_user d pk u) as H1 by (rewrite Hqs; left).
    assert (r2 ∈ filter_event_user d pk u) as H2
      by (rewrite Hqs; right; left).
    apply list_elem_of_filter in H1 as [[He1 Hu1] H1].
    apply list_elem_of_filter in H2 as [[He2 Hu2] H2].
    assert (r1 = r2) as <-.
    { apply (NoDup_fmap_eq _ _ _ _ Hpair H1 H2). simpl. congruence. }
    assert (NoDup (filter_event_user d pk u)) as Hnd.
    { apply NoDup_filter. by apply NoDup_fmap_1 in Hid. }
    rewrite Hqs in Hnd. apply NoDup_cons in Hnd as [Hnot _].
    apply Hnot. left.
Qed.

(** Deleting the row of a pair removes that row and no other. *)
Lemma delete_registration (d : DB) (pk u : Z) (r : EventRegistration) :
  db_ok d →
  filter_event_user d pk u = [r] →
  EventRegistration_objects (delete d r)
  = filter (λ r', ¬ (event r' = pk ∧ user r' = u))
           (EventRegistration_objects d).
Proof.
  intros (Hid & _ & Hpair) Hqs. unfold delete. simpl.
  assert (r ∈ filter_event_user d pk u) as Hin by (rewrite Hqs; left).
  apply list_elem_of_filter in Hin as [[He Hu] Hin].
  apply filter_ext_elem_of. intros r' Hr'. split.
  - intros Hne [He' Hu']. apply Hne. f_equal.
    apply (NoDup_fmap_eq _ _ _ _ Hpair Hr' Hin). simpl. congruence.
  - intros Hne Heq. apply Hne.
    by rewrite (NoDup_fmap_eq _ _ _ _ Hid Hr' Hin Heq).
Qed.

Lemma filter_event_user_delete (d : DB) (pk u : Z) (r : EventRegistration) :
  db_ok d →
  filter_event_user d pk u = [r] →
  filter_event_user (delete d r) pk u = [].
Proof.
  intros Hok Hqs. unfold filter_event_user.
  rewrite (delete_registration d pk u r Hok Hqs), list_filter_filter.
  induction (EventRegistration_objects d) as [|r' l IH]; [done|].
  rewrite filter_cons_False; [done | tauto].
Qed.

Lemma length_filter_split {A} (P Q : A → Prop)
    `{!∀ x, Decision (P x), !∀ x, Decision (Q x)} (l : list A) :
  length (filter P l)
  = (length (filter (λ x, P x ∧ Q x) l)
     + length (filter (λ x, P x ∧ ¬ Q x) l))%nat.
Proof.
  induction l as [|a l IH]; [done|].
  rewrite !filter_cons.
  repeat case_decide; simpl; rewrite IH; try lia; exfalso; tauto.
Qed.

Lemma registered_count_delete (d : DB) (pk u : Z) (r : EventRegistration) :
  db_ok d →
  filter_event_user d pk u = [r] →
  S (registered_count (delete d r) pk) = registered_count d pk.
Proof.
  intros Hok Hqs. unfold registered_count, event_registrations.
  rewrite (delete_registration d pk u r Hok Hqs), list_filter_filter.
  rewrite (length_filter_split (λ r', event r' = pk)
             (λ r', event r' = pk ∧ user r' = u)).
  rewrite (list_filter_iff (λ r', event r' = pk ∧ event r' = pk ∧ user r' = u)
             (λ r', event r' = pk ∧ user r' = u)) by tauto.
  fold (filter_event_user d pk u). by rewrite Hqs.
Qed.

Lemma db_ok_insert_row (d : DB) (stamp pk u : Z) :
  db_ok d →
  exists_ (filter_event_user d pk u) = false →
  db_ok (insert_row d (new_row d stamp pk u)).
Proof.
  intros (Hid & Hlt & Hpair) Hex%exists_false.
  unfold db_ok, insert_row, new_row. simpl. rewrite !fmap_app. simpl.
  split; [|split].
  - apply NoDup_app. split; [done|]. split; [|apply NoDup_singleton].
    intros x (r & Hx & Hr)%list_elem_of_fmap Hx'%list_elem_of_singleton.
    rewrite Forall_forall in Hlt. specialize (Hlt r Hr). lia.
  - apply Forall_app. split.
    + eapply Forall_impl; [exact Hlt|]. simpl. intros; lia.
    + apply Forall_singleton. simpl. lia.
  - apply NoDup_app. split; [done|]. split; [|apply NoDup_singleton].
    intros x (r & Hx & Hr)%list_elem_of_fmap Hx'%list_elem_of_singleton.
    rewrite Hx in Hx'. injection Hx' as He Hu.
    apply (filter_nil_not_elem_of _ _ r Hex); done.
Qed.

Lemma db_ok_delete (d : DB) (r : EventRegistration) :
  db_ok d → db_ok (delete d r).
Proof.
  intros (Hid & Hlt & Hpair). unfold db_ok, delete. simpl.
  assert (∀ {B} (f : EventRegistration → B) (l : list EventRegistration),
            NoDup (f <$> l) →
            NoDup (f <$> filter (λ r', id r' ≠ id r) l)) as Hsub.
  { intros B f l. induction l as [|a l IH]; [done|]. simpl.
    rewrite NoDup_cons. intros [Ha Hl]. rewrite filter_cons.
    case_decide; [|by apply IH]. simpl. apply NoDup_cons. split; [|by apply IH].
    intros (x & Hx & Hin%list_elem_of_filter)%list_elem_of_fmap.
    apply Ha. rewrite Hx. apply list_elem_of_fmap_2. tauto. }
  split; [by apply Hsub|]. split; [|by apply Hsub].
  rewrite !Forall_forall in *. intros x [_ Hx]%list_elem_of_filter.
  by apply Hlt.
Qed.

(** ** [unregister], one case per branch *)

Lemma unregister_registered (w : World) (u pk : Z) (e : Event)
    (r : EventRegistration) :
  Event_objects (db w) !! pk = Some e →
  filter_event_user (db w) pk u = [r] →
  unregister w (Some u) pk
  = (Returned {| data := MessageData "Successfully unregistered from event";
                 status := HTTP_200_OK |},
     set_db w (delete (db w) r)).
Proof.
  intros He Hqs. unfold unregister.
  by rewrite (get_object_lookup _ _ _ He), Hqs.
Qed.

Lemma unregister_not_registered (w : World) (u pk : Z) (e : Event) :
  Event_objects (db w) !! pk = Some e →
  exists_ (filter_event_user (db w) pk u) = false →
  unregister w (Some u) pk = (failure NotRegistered, w).
Proof.
  intros He Hex%exists_false. unfold unregister.
  by rewrite (get_object_lookup _ _ _ He), Hex.
Qed.

(** ** C6: unregistration *)

(** C6: for an existing event and a database that satisfies its schema,
    [unregister] succeeds exactly when the caller holds a registration
    for the event. It then deletes that registration and no other row,
    and a second [unregister] fails with NotRegistered; when the caller
    holds none it fails with NotRegistered and changes nothing. *)
Theorem unregister_own_registration (w : World) (u pk : Z) (e : Event) :
  db_ok (db w) →
  Event_objects (db w) !! pk = Some e →
  (exists_ (filter_event_user (db w) pk u) = true →
   ∃ r w',
     r ∈ EventRegistration_objects (db w) ∧ event r = pk ∧ user r = u
     ∧ unregister w (Some u) pk
       = (Returned {| data := MessageData
                                "Successfully unregistered from event";
                      status := HTTP_200_OK |}, w')
     ∧ EventRegistration_objects (db w')
       = filter (λ r', ¬ (event r' = pk ∧ user r' = u))
                (EventRegistration_objects (db w))
     ∧ unregister w' (Some u) pk = (failure NotRegistered, w'))
  ∧ (exists_ (filter_event_user (db w) pk u) = false →
     unregister w (Some u) pk = (failure NotRegistered, w)).
Proof.
  intros Hok He. split; [|by apply unregister_not_registered with e].
  intros Hex.
  destruct (get_of_exists _ _ _ Hok Hex) as (r & Hqs & Hin & Hev & Hus).
  exists r, (set_db w (delete (db w) r)).
  split; [done|]. split; [done|]. split; [done|].
  split; [by apply unregister_registered with e|].
  split; [by apply delete_registration|].
  apply unregister_not_registered with e; [done|]. simpl.
  by rewrite filter_event_user_delete.
Qed.

(** User 10 leaves the workshop: the first call succeeds, the second is
    answered NotRegistered; user 12, who never signed up, is answered
    NotRegistered at once. *)
Lemma unregister_own_registration_witness :
  (∃ w',
     unregister (examples.world_of examples.db_busy) (Some 10%Z) 3%Z
     = (Returned {| data := MessageData
                              "Successfully unregistered from event";
                    status := HTTP_200_OK |}, w')
     ∧ unregister w' (Some 10%Z) 3%Z = (failure NotRegistered, w'))
  ∧ unregister (examples.world_of examples.db_busy) (Some 12%Z) 3%Z
    = (failure NotRegistered, examples.world_of examples.db_busy).
Proof.
  assert (db_ok (db (examples.world_of examples.db_busy))) as Hok
    by (by apply (bool_decide_unpack _)).
  split.
  - destruct (unregister_own_registration
                (examples.world_of examples.db_busy) 10%Z 3%Z
                examples.workshop Hok eq_refl) as [H _].
    destruct (H eq_refl) as (r & w' & _ & _ & _ & H1 & _ & H2).
    by exists w'.
  - by apply (unregister_own_registration
                (examples.world_of examples.db_busy) 12%Z 3%Z
                examples.workshop Hok eq_refl).
Defined.

(** ** C10: unregistration after the start *)

(** C10: [unregister] never reads the clock or the start time; whatever
    the time [now], a caller who holds a registration for an event that
    has started is unregistered, not answered Closed. *)
Theorem unregister_ignores_start_time (w : World) (now : Z) (u pk : Z)
    (e : Event) :
  db_ok (db w) →
  Event_objects (db w) !! pk = Some e →
  is_past e now = true →
  exists_ (filter_event_user (db w) pk u) = true →
  fst (unregister w (Some u) pk)
  = Returned {| data := MessageData "Successfully unregistered from event";
                status := HTTP_200_OK |}
  ∧ fst (unregister w (Some u) pk) ≠ failure Closed
  ∧ exists_ (filter_event_user (db (snd (unregister w (Some u) pk))) pk u)
    = false.
Proof.
  intros Hok He _ Hex.
  destruct (get_of_exists _ _ _ Hok Hex) as (r & Hqs & _).
  rewrite (unregister_registered w u pk e r He Hqs). simpl.
  split; [done|]. split; [done|].
  by rewrite filter_event_user_delete.
Qed.

(** The meetup started at 5; at 10 user 10 still leaves it. *)
Lemma unregister_ignores_start_time_witness :
  fst (unregister (examples.world_of examples.db_busy) (Some 10%Z) 2%Z)
  = Returned {| data := MessageData "Successfully unregistered from event";
                status := HTTP_200_OK |}.
Proof.
  apply (unregister_ignores_start_time
           (examples.world_of examples.db_busy) 10%Z 10%Z 2%Z
           examples.meetup);
    [by apply (bool_decide_unpack _) | reflexivity..].
Defined.

(** ** C9: a freed seat can be taken at once *)

(** C9: when a caller holds a registration for an event that has not
    started and whose capacity [C] is exactly filled, [unregister]
    succeeds and the [register] that follows it is admitted: the count
    it reads is already [C - 1], and it ends at [C] again. *)
Theorem unregister_then_register (w : World) (env : Env) (u pk : Z)
    (e : Event) (C : nat) :
  db_ok (db w) →
  Event_objects (db w) !! pk = Some e →
  max_participants e = Some C →
  registered_count (db w) pk = C →
  exists_ (filter_event_user (db w) pk u) = true →
  is_past e (now env) = false →
  ∃ w1 w2 r,
    unregister w (Some u) pk
    = (Returned {| data := MessageData "Successfully unregistered from event";
                   status := HTTP_200_OK |}, w1)
    ∧ S (registered_count (db w1) pk) = C
    ∧ register w1 env (Some u) pk
      = (Returned {| data := RegistrationData r;
                     status := HTTP_201_CREATED |}, w2)
    ∧ filter_event_user (db w2) pk u = [r]
    ∧ registered_count (db w2) pk = C.
Proof.
  intros Hok He HC Hcount Hex Hpast.
  destruct (get_of_exists _ _ _ Hok Hex) as (r0 & Hqs & _).
  pose proof (registered_count_delete _ _ _ _ Hok Hqs) as Hdel.
  pose proof (filter_event_user_delete _ _ _ _ Hok Hqs) as Hgone.
  set (w1 := set_db w (delete (db w) r0)).
  set (r := new_row (db w1) (stamp env) pk u).
  exists w1,
    (try_send_registration_email (set_db w1 (insert_row (db w1) r)) env pk u),
    r.
  split; [by apply unregister_registered with e|].
  split; [subst w1; simpl; lia|].
  assert (is_full (db w1) pk e = false) as Hfull.
  { unfold is_full. rewrite HC. apply bool_decide_eq_false_2.
    subst w1. simpl. lia. }
  split; [|split].
  - rewrite register_unfold. subst w1. simpl. rewrite He, Hpast.
    simpl in Hfull. by rewrite Hfull, Hgone.
  - rewrite db_try_send_registration_email. subst w1. simpl.
    unfold filter_event_user in *. simpl in *.
    rewrite filter_app, Hgone, filter_singleton; [|exact []].
    by rewrite decide_True.
  - rewrite db_try_send_registration_email. simpl.
    rewrite registered_count_insert_row. subst w1 r. simpl.
    rewrite decide_True by done. lia.
Qed.

(** User 10 holds the only seat of the conference, gives it up and takes
    it again at once. *)
Lemma unregister_then_register_witness :
  ∃ w1 w2 r,
    unregister (examples.world_of examples.db_busy) (Some 10%Z) 1%Z
    = (Returned {| data := MessageData "Successfully unregistered from event";
                   status := HTTP_200_OK |}, w1)
    ∧ register w1 examples.at_10 (Some 10%Z) 1%Z
      = (Returned {| data := RegistrationData r;
                     status := HTTP_201_CREATED |}, w2).
Proof.
  destruct (unregister_then_register
              (examples.world_of examples.db_busy) examples.at_10
              10%Z 1%Z examples.conference 1%nat)
    as (w1 & w2 & r & H1 & _ & H2 & _);
    [by apply (bool_decide_unpack _) | reflexivity..|].
  by exists w1, w2, r.
Defined.

(** ** C7: a notification that fails *)

(** The admission check passes only for an authenticated caller and an
    existing event that has not started, is not full and does not have
    the caller among its registrations. *)
Lemma register_is_valid_inr (d : DB) (now : Z) (request_user : option Z)
    (pk u event_id : Z) :
  register_is_valid d now request_user pk = inr (u, event_id) →
  request_user = Some u ∧ event_id = pk
  ∧ ∃ e, Event_objects d !! pk = Some e
         ∧ is_past e now = false
         ∧ is_full d pk e = false
         ∧ exists_ (filter_event_user d pk u) = false.
Proof.
  unfold register_is_valid, get_object, validate_event_id.
  destruct request_user as [u'|]; [|discriminate].
  destruct (Event_objects d !! pk) as [e|] eqn:He; [|discriminate].
  destruct (is_past e now) eqn:Hpast; [discriminate|].
  destruct (is_full d pk e) eqn:Hfull; [discriminate|].
  destruct (exists_ (filter_event_user d pk u')) eqn:Hex; [discriminate|].
  intros [= <- <-]. split; [done|]. split; [done|]. by exists e.
Qed.

(** C7: when the admission of a [register] call succeeds and [send_mail]
    raises, the caller still receives the created registration with
    status 201, the row is in the database, the exception does not
    leave the view, and one line is printed; the response and the
    database are those of the same call at the same time whatever the
    mail transport does, a delivery included. *)
Theorem notification_failure_is_absorbed (w : World) (env : Env)
    (request_user : option Z) (pk u event_id : Z) (msg : string) :
  register_is_valid (db w) (now env) request_user pk = inr (u, event_id) →
  smtp_error env = Some msg →
  ∃ r w',
    register w env request_user pk
    = (Returned {| data := RegistrationData r;
                   status := HTTP_201_CREATED |}, w')
    ∧ r ∈ EventRegistration_objects (db w')
    ∧ event r = pk ∧ user r = u
    ∧ stdout w' = stdout w ++ [("Failed to send email: " ++ msg)%string]
    ∧ outbox w' = outbox w
    ∧ ∀ other,
        now other = now env → stamp other = stamp env →
        fst (register w other request_user pk)
        = fst (register w env request_user pk)
        ∧ db (snd (register w other request_user pk)) = db w'.
Proof.
  intros Hvalid Hsmtp.
  apply register_is_valid_inr in Hvalid
    as (-> & -> & e & He & Hpast & Hfull & Hex).
  rewrite register_unfold, He, Hpast, Hfull, Hex. simpl.
  eexists _, _. split; [reflexivity|].
  unfold try_send_registration_email. rewrite Hsmtp. simpl.
  split; [apply elem_of_app; right; left|].
  do 4 (split; [done|]).
  intros other Hnow Hstamp.
  rewrite register_unfold, Hnow, Hstamp, He, Hpast, Hfull, Hex. simpl.
  by rewrite db_try_send_registration_email.
Qed.

(** User 12 signs up for the workshop while the mail server is down. *)
Lemma notification_failure_is_absorbed_witness :
  ∃ r w',
    register (examples.world_of examples.db_empty) examples.at_10_mail_down
             (Some 12%Z) 3%Z
    = (Returned {| data := RegistrationData r;
                   status := HTTP_201_CREATED |}, w')
    ∧ r ∈ EventRegistration_objects (db w')
    ∧ stdout w' = ["Failed to send email: Connection refused"%string].
Proof.
  destruct (notification_failure_is_absorbed
              (examples.world_of examples.db_empty)
              examples.at_10_mail_down (Some 12%Z) 3%Z 12%Z 3%Z
              "Connection refused" eq_refl eq_refl)
    as (r & w' & H1 & H2 & _ & _ & H3 & _).
  by exists r, w'.
Defined.

(** ** C2: racing [register] requests *)


(** The insertion checks [unique_together] itself, so the schema holds
    after any database access of any task. *)
Lemma advance_db_ok (w : World) (t : Task) :
  db_ok (db w) → db_ok (db (snd (advance w t))).
Proof.
  intros Hok. destruct t as [env ru pk|env pk u event_id|o]; simpl.
  - by destruct (register_is_valid (db w) (now env) ru pk) as [o|[u eid]].
  - unfold register_save, create, objects_create.
    destruct (Event_objects (db w) !! event_id); [|done].
    destruct (exists_ (filter_event_user (db w) event_id u)) eqn:Hex; [done|].
    simpl. rewrite db_try_send_registration_email. simpl.
    by apply db_ok_insert_row.
  - done.
Qed.

Lemma run_db_ok (c : Config) (sched : list nat) :
  db_ok (db (world c)) → db_ok (db (world (run c sched))).
Proof.
  revert c. induction sched as [|i sched IH]; intros c Hok; [done|].
  simpl. apply IH. unfold step.
  destruct (tasks c !! i) as [t|]; [|done].
  pose proof (advance_db_ok (world c) t Hok).
  by destruct (advance (world c) t).
Qed.






(** * Further properties of the code *)

(** ** Validation of an event and its first registration *)

(** X1: [validate_date] and [is_past] draw the same line: at one reading of
    the clock a date is accepted, unchanged, exactly when an event with
    that date is not past, and is rejected with the message of the
    serializer otherwise. A date accepted at some time is accepted at
    every earlier time. *)
Theorem validate_date_agrees_with_is_past (now : Z) (e : Event) :
  (validate_date now (date e) = inr (date e) ↔ is_past e now = false)
  ∧ (validate_date now (date e)
     = inl "Event date cannot be in the past."%string
     ↔ is_past e now = true)
  ∧ (∀ earlier, (earlier ≤ now)%Z →
       validate_date now (date e) = inr (date e) →
       validate_date earlier (date e) = inr (date e)).
Proof.
  unfold validate_date, is_past. split; [|split].
  - case_bool_decide; split; (done || discriminate).
  - case_bool_decide; split; (done || discriminate).
  - intros earlier Hle. repeat case_bool_decide; (done || lia).
Qed.

Lemma registered_count_0_not_registered (d : DB) (pk u : Z) :
  registered_count d pk = 0%nat → exists_ (filter_event_user d pk u) = false.
Proof.
  unfold registered_count, event_registrations, filter_event_user.
  intros Hlen%nil_length_inv. apply exists_false.
  rewrite <- (list_filter_filter_l (λ r, event r = pk ∧ user r = u)
                (λ r, event r = pk)) by tauto.
  by rewrite Hlen.
Qed.

(** X2: An event whose date and capacity pass their validators
    ([validate_date], [MinValueValidator(1)]) and that has no
    registration admits any authenticated caller at that time. A
    capacity of zero, which only the validator excludes, admits nobody:
    before the start every caller is told Full. *)
Theorem validated_event_admits_first_registration (w : World) (env : Env)
    (u pk : Z) (e : Event) :
  Event_objects (db w) !! pk = Some e →
  registered_count (db w) pk = 0%nat →
  validate_date (now env) (date e) = inr (date e) →
  (max_participants_valid (max_participants e) = true →
   fst (register w env (Some u) pk)
   = Returned {| data := RegistrationData
                           (new_row (db w) (stamp env) pk u);
                 status := HTTP_201_CREATED |})
  ∧ (max_participants e = Some 0%nat →
     max_participants_valid (max_participants e) = false
     ∧ register w env (Some u) pk = (failure Full, w)).
Proof.
  intros He Hcount Hdate.
  assert (is_past e (now env) = false) as Hpast.
  { revert Hdate. unfold validate_date, is_past.
    by case_bool_decide. }
  rewrite register_unfold, He, Hpast. unfold is_full. rewrite Hcount.
  split.
  - intros Hvalid.
    rewrite (registered_count_0_not_registered _ _ _ Hcount).
    destruct (max_participants e) as [n|]; [|done].
    simpl in Hvalid. apply bool_decide_eq_true in Hvalid.
    by rewrite bool_decide_eq_false_2 by lia.
  - intros ->. done.
Qed.

(** Nobody has signed up for the workshop, which starts at 10 and has
    two seats: at 10 user 12 is admitted. *)
Lemma validated_event_admits_first_registration_witness :
  fst (register (examples.world_of examples.db_empty) examples.at_10
                (Some 12%Z) 3%Z)
  = Returned {| data := RegistrationData
                  {| id := 1; event := 3; user := 12; registered_at := 11 |};
                status := HTTP_201_CREATED |}.
Proof.
  apply (validated_event_admits_first_registration
           (examples.world_of examples.db_empty) examples.at_10
           12%Z 3%Z examples.workshop); reflexivity.
Defined.

(** ** The [is_registered] field *)

(** X3: [get_is_registered] is false for an anonymous request. For an
    authenticated caller, an existing event and a database that
    satisfies its schema, it is true exactly when [unregister] would
    succeed; a successful [register] turns it from false to true and a
    successful [unregister] turns it to false. *)
Theorem is_registered_follows_the_actions (w : World) (env : Env)
    (u pk : Z) (e : Event) :
  db_ok (db w) →
  Event_objects (db w) !! pk = Some e →
  get_is_registered (db w) None pk = false
  ∧ (get_is_registered (db w) (Some u) pk = true
     ↔ status_code (fst (unregister w (Some u) pk)) = HTTP_200_OK)
  ∧ (status_code (fst (register w env (Some u) pk)) = HTTP_201_CREATED →
     get_is_registered (db w) (Some u) pk = false
     ∧ get_is_registered (db (snd (register w env (Some u) pk)))
         (Some u) pk = true)
  ∧ (status_code (fst (unregister w (Some u) pk)) = HTTP_200_OK →
     get_is_registered (db (snd (unregister w (Some u) pk)))
       (Some u) pk = false).
Proof.
  intros Hok He. unfold get_is_registered.
  assert (exists_ (filter_event_user (db w) pk u) = true
          ↔ status_code (fst (unregister w (Some u) pk)) = HTTP_200_OK)
    as Hiff.
  { destruct (exists_ (filter_event_user (db w) pk u)) eqn:Hex.
    - destruct (get_of_exists _ _ _ Hok Hex) as (r & Hqs & _).
      by rewrite (unregister_registered w u pk e r He Hqs).
    - by rewrite (unregister_not_registered w u pk e He Hex). }
  split; [done|]. split; [done|]. split.
  - intros Hst.
    destruct (register_effect w env (Some u) pk)
      as [[_ Hne]|(u' & e' & [= <-] & _ & _ & _ & Hex & _ & Hdb)]; [done|].
    split; [done|]. rewrite Hdb. apply exists_true.
    exists (new_row (db w) (stamp env) pk u).
    apply list_elem_of_filter. split; [done|].
    simpl. apply elem_of_app. right. left.
  - intros Hst. apply Hiff in Hst.
    destruct (get_of_exists _ _ _ Hok Hst) as (r & Hqs & _).
    rewrite (unregister_registered w u pk e r He Hqs). simpl.
    by rewrite filter_event_user_delete.
Qed.

(** User 10 is registered for the workshop and user 12 is not. *)
Lemma is_registered_follows_the_actions_witness :
  get_is_registered examples.db_busy (Some 10%Z) 3%Z = true
  ∧ get_is_registered
      (db (snd (unregister (examples.world_of examples.db_busy)
                           (Some 10%Z) 3%Z))) (Some 10%Z) 3%Z = false.
Proof.
  assert (db_ok (db (examples.world_of examples.db_busy))) as Hok
    by (by apply (bool_decide_unpack _)).
  destruct (is_registered_follows_the_actions
              (examples.world_of examples.db_busy) examples.at_10
              10%Z 3%Z examples.workshop Hok eq_refl)
    as (_ & Hiff & _ & Hun).
  split; [by apply Hiff | by apply Hun].
Defined.

(** ** A branch of [validate_event_id] that [register] never takes *)

(** X4: [validate_event_id] reports an unknown primary key as a validation
    error, but [register] looks the event up in [get_object] first:
    whatever the world and the request, its answer is never the
    validation error "Event does not exist."; a missing event always
    leaves the view as [Http404]. *)
Theorem register_never_reports_missing_event_as_invalid (w : World)
    (env : Env) (request_user : option Z) (pk : Z) :
  (Event_objects (db w) !! pk = None →
   validate_event_id (db w) (now env) request_user pk
   = inl "Event does not exist."%string)
  ∧ (∀ st,
       fst (register w env request_user pk)
       ≠ Returned {| data := FieldErrors "event_id"
                               ["Event does not exist."%string];
                     status := st |}).
Proof.
  split.
  - unfold validate_event_id. by intros ->.
  - intros st. destruct request_user as [u|]; [|done].
    rewrite register_unfold.
    destruct (Event_objects (db w) !! pk) as [e|]; [|done].
    destruct (is_past e (now env)); [done|].
    destruct (is_full (db w) pk e); [done|].
    by destruct (exists_ (filter_event_user (db w) pk u)).
Qed.

(** ** Calls that run one after another never fail on the server *)

Lemma perform_db_ok (w : World) (c : Call) :
  db_ok (db w) → db_ok (db (snd (perform w c))).
Proof.
  intros Hok. destruct c as [env ru pk|ru pk]; simpl.
  - destruct (register_effect w env ru pk)
      as [[-> _]|(u & e & _ & _ & _ & _ & Hex & _ & ->)]; [done|].
    by apply db_ok_insert_row.
  - destruct (unregister_effect w ru pk) as [->|(u & r & _ & _ & ->)];
      [done|]. simpl. by apply db_ok_delete.
Qed.

Lemma perform_status (w : World) (c : Call) :
  db_ok (db w) →
  status_code (fst (perform w c))
  ∈ [HTTP_200_OK; HTTP_201_CREATED; HTTP_400_BAD_REQUEST;
     HTTP_401_UNAUTHORIZED; HTTP_404_NOT_FOUND].
Proof.
  intros Hok. destruct c as [env [u|] pk|[u|] pk]; unfold perform;
    [| set_solver | | set_solver].
  - rewrite register_unfold.
    destruct (Event_objects (db w) !! pk) as [e|]; [|set_solver].
    destruct (is_past e (now env)); [set_solver|].
    destruct (is_full (db w) pk e); [set_solver|].
    destruct (exists_ (filter_event_user (db w) pk u)); set_solver.
  - destruct (Event_objects (db w) !! pk) as [e|] eqn:He.
    + destruct (exists_ (filter_event_user (db w) pk u)) eqn:Hex.
      * destruct (get_of_exists _ _ _ Hok Hex) as (r & Hqs & _).
        rewrite (unregister_registered w u pk e r He Hqs). set_solver.
      * rewrite (unregister_not_registered w u pk e He Hex). set_solver.
    + rewrite (unregister_no_event w u pk He). set_solver.
Qed.

(** X5: From a database that satisfies its schema, any sequence of
    [register] and [unregister] calls run one after another keeps the
    schema (unique primary keys, one row per pair) and answers every
    call with 200, 201, 400, 401 or 404: no [IntegrityError],
    [MultipleObjectsReturned] or other server error leaves a view. *)
Theorem calls_never_fail_on_the_server (w : World) (cs : list Call) :
  db_ok (db w) →
  db_ok (db (snd (perform_all w cs)))
  ∧ Forall (λ o, status_code o
                 ∈ [HTTP_200_OK; HTTP_201_CREATED; HTTP_400_BAD_REQUEST;
                    HTTP_401_UNAUTHORIZED; HTTP_404_NOT_FOUND])
           (fst (perform_all w cs)).
Proof.
  revert w. induction cs as [|c cs IH]; intros w Hok; [by split|].
  rewrite perform_all_cons. simpl.
  destruct (IH (snd (perform w c)) (perform_db_ok w c Hok)) as [IH1 IH2].
  split; [done|]. constructor; [by apply perform_status | done].
Qed.

Lemma calls_never_fail_on_the_server_witness :
  Forall (λ o, status_code o
               ∈ [HTTP_200_OK; HTTP_201_CREATED; HTTP_400_BAD_REQUEST;
                  HTTP_401_UNAUTHORIZED; HTTP_404_NOT_FOUND])
         (fst (perform_all (examples.world_of examples.db_busy)
                           examples.five_calls)).
Proof.
  apply (calls_never_fail_on_the_server
           (examples.world_of examples.db_busy) examples.five_calls).
  by apply (bool_decide_unpack _).
Defined.

(** ** A call touches the registrations of its own pair only *)

Lemma filter_insert_row_other (P : EventRegistration → Prop)
    `{!∀ r, Decision (P r)} (d : DB) (r : EventRegistration) :
  ¬ P r →
  filter P (EventRegistration_objects (insert_row d r))
  = filter P (EventRegistration_objects d).
Proof.
  intros Hr. simpl. rewrite filter_app, filter_cons_False by done.
  by rewrite filter_nil, app_nil_r.
Qed.

Lemma filter_delete_other (P : EventRegistration → Prop)
    `{!∀ r, Decision (P r)} (d : DB) (pk u : Z) (r : EventRegistration) :
  db_ok d →
  filter_event_user d pk u = [r] →
  (∀ r', P r' → ¬ (event r' = pk ∧ user r' = u)) →
  filter P (EventRegistration_objects (delete d r))
  = filter P (EventRegistration_objects d).
Proof.
  intros Hok Hqs HP. rewrite (delete_registration d pk u r Hok Hqs).
  by apply list_filter_filter_l.
Qed.

(** X6: A [register] or [unregister] call of user [u] for event [pk] leaves
    the event table as it is, and changes neither the registrations of
    any other event nor those of any other user: the counts of the other
    events and what the other users see of their own registrations stay
    the same. *)
Theorem call_touches_only_its_own_pair (w : World) (c : Call) (u pk : Z) :
  db_ok (db w) →
  (∃ env, c = CallRegister env (Some u) pk) ∨ c = CallUnregister (Some u) pk →
  let w' := snd (perform w c) in
  Event_objects (db w') = Event_objects (db w)
  ∧ (∀ pk', pk' ≠ pk →
       event_registrations (db w') pk' = event_registrations (db w) pk'
       ∧ registered_count (db w') pk' = registered_count (db w) pk')
  ∧ (∀ v, v ≠ u →
       get_queryset w' (Some v) = get_queryset w (Some v)
       ∧ ∀ pk', get_is_registered (db w') (Some v) pk'
                = get_is_registered (db w) (Some v) pk').
Proof.
  intros Hok Hc w'. split; [apply perform_events|].
  assert (∀ (P : EventRegistration → Prop) `{!∀ r, Decision (P r)},
            (∀ r, P r → ¬ (event r = pk ∧ user r = u)) →
            filter P (EventRegistration_objects (db w'))
            = filter P (EventRegistration_objects (db w))) as Hframe.
  { intros P HPdec HP. subst w'.
    destruct Hc as [[env ->]| ->]; unfold perform.
    - destruct (register_effect w env (Some u) pk)
        as [[-> _]|(u' & e & [= <-] & _ & _ & _ & _ & _ & ->)]; [done|].
      apply filter_insert_row_other. intros HPr. by apply (HP _ HPr).
    - destruct (unregister_effect w (Some u) pk)
        as [->|(u' & r & [= <-] & Hqs & ->)]; [done|].
      simpl. by apply filter_delete_other with pk u. }
  split.
  - intros pk' Hpk'. unfold registered_count, event_registrations.
    rewrite Hframe; [done|]. intros r -> [? _]. done.
  - intros v Hv. unfold get_queryset, filter_user, get_is_registered,
      filter_event_user. split.
    + rewrite Hframe; [done|]. intros r -> [_ ?]. done.
    + intros pk'. rewrite Hframe; [done|]. intros r [_ ->] [_ ?]. done.
Qed.

(** User 10 leaves the workshop: the conference keeps its registration
    and user 11 sees the same list as before. *)
Lemma call_touches_only_its_own_pair_witness :
  registered_count
    (db (snd (perform (examples.world_of examples.db_busy)
                      (CallUnregister (Some 10%Z) 3%Z)))) 1%Z
  = registered_count examples.db_busy 1%Z
  ∧ get_queryset
      (snd (perform (examples.world_of examples.db_busy)
                    (CallUnregister (Some 10%Z) 3%Z))) (Some 11%Z)
    = get_queryset (examples.world_of examples.db_busy) (Some 11%Z).
Proof.
  assert (db_ok (db (examples.world_of examples.db_busy))) as Hok
    by (by apply (bool_decide_unpack _)).
  destruct (call_touches_only_its_own_pair
              (examples.world_of examples.db_busy)
              (CallUnregister (Some 10%Z) 3%Z) 10%Z 3%Z Hok
              (or_intror eq_refl)) as (_ & Hev & Hus).
  split.
  - by apply (Hev 1%Z).
  - by apply (Hus 11%Z).
Defined.

(** ** Signing up and leaving again *)

(** X7: When [register] admits a caller and the same caller calls
    [unregister] next, the registration table is again what it was
    before the two calls, row for row. Only the primary key sequence
    has moved on: the key of the deleted row is not given out again. *)
Theorem register_then_unregister_restores (w : World) (env : Env)
    (u pk : Z) :
  db_ok (db w) →
  status_code (fst (register w env (Some u) pk)) = HTTP_201_CREATED →
  ∃ w2,
    unregister (snd (register w env (Some u) pk)) (Some u) pk
    = (Returned {| data := MessageData "Successfully unregistered from event";
                   status := HTTP_200_OK |}, w2)
    ∧ EventRegistration_objects (db w2) = EventRegistration_objects (db w)
    ∧ Event_objects (db w2) = Event_objects (db w)
    ∧ next_id (db w2) = (next_id (db w) + 1)%Z.
Proof.
  intros Hok Hst.
  destruct (register_effect w env (Some u) pk)
    as [[_ Hne]|(u' & e & [= <-] & He & _ & _ & Hex & _ & Hdb)]; [done|].
  set (w1 := snd (register w env (Some u) pk)) in *.
  set (r := new_row (db w) (stamp env) pk u) in *.
  apply exists_false in Hex.
  assert (filter_event_user (db w1) pk u = [r]) as Hqs.
  { rewrite Hdb. unfold filter_event_user in *. simpl.
    rewrite filter_app, Hex, filter_cons_True by done. done. }
  assert (db_ok (db w1)) as Hok1.
  { rewrite Hdb. apply db_ok_insert_row; [done|]. by apply exists_false. }
  exists (set_db w1 (delete (db w1) r)). split.
  - apply unregister_registered with e; [by rewrite Hdb | done].
  - cbn [db set_db].
    rewrite (delete_registration (db w1) pk u r Hok1 Hqs).
    unfold delete. cbn [Event_objects next_id]. rewrite Hdb.
    split; [|done]. simpl.
    rewrite filter_app, filter_cons_False by (simpl; tauto).
    rewrite filter_nil, app_nil_r.
    unfold filter_event_user in Hex.
    induction (EventRegistration_objects (db w)) as [|r' l IH]; [done|].
    revert Hex. rewrite !filter_cons.
    destruct (decide (event r' = pk ∧ user r' = u)); [done|].
    intros Hex. rewrite decide_True by done. f_equal. by apply IH.
Qed.

Lemma register_then_unregister_restores_witness :
  ∃ w2,
    unregister (snd (register (examples.world_of examples.db_one_seat_left)
                              examples.at_10 (Some 11%Z) 3%Z))
               (Some 11%Z) 3%Z
    = (Returned {| data := MessageData "Successfully unregistered from event";
                   status := HTTP_200_OK |}, w2)
    ∧ EventRegistration_objects (db w2)
      = EventRegistration_objects examples.db_one_seat_left.
Proof.
  destruct (register_then_unregister_restores
              (examples.world_of examples.db_one_seat_left) examples.at_10
              11%Z 3%Z) as (w2 & H1 & H2 & _);
    [by apply (bool_decide_unpack _) | reflexivity |].
  by exists w2.
Defined.

(** ** An event without a limit *)

Lemma filter_event_user_insert_row_other (d : DB) (r : EventRegistration)
    (pk u : Z) :
  user r ≠ u →
  filter_event_user (insert_row d r) pk u = filter_event_user d pk u.
Proof.
  intros Hu. unfold filter_event_user.
  apply filter_insert_row_other. tauto.
Qed.

(** X8: An event whose [max_participants] is null is never full: when
    callers who are not registered for it, no two of them the same,
    sign up one after another before the start, each of them is
    admitted, and the count grows by their number. *)
Theorem unlimited_event_admits_everyone (requests : list (Env * Z))
    (w : World) (pk : Z) (e : Event) :
  Event_objects (db w) !! pk = Some e →
  max_participants e = None →
  NoDup (snd <$> requests) →
  Forall (λ q, is_past e (now (fst q)) = false
               ∧ exists_ (filter_event_user (db w) pk (snd q)) = false)
         requests →
  Forall (λ o, status_code o = HTTP_201_CREATED)
         (fst (perform_all w
                 ((λ q, CallRegister (fst q) (Some (snd q)) pk)
                    <$> requests)))
  ∧ registered_count
      (db (snd (perform_all w
                  ((λ q, CallRegister (fst q) (Some (snd q)) pk)
                     <$> requests)))) pk
    = (registered_count (db w) pk + length requests)%nat.
Proof.
  intros He Hmax. revert w He.
  induction requests as [|[env u] requests IH]; intros w He Hnd Hall.
  { simpl. split; [done | lia]. }
  rewrite fmap_cons in Hnd. apply NoDup_cons in Hnd as [Hu Hnd].
  apply Forall_cons in Hall as [[Hpast Hex] Hall]. simpl in Hpast, Hex.
  rewrite fmap_cons, perform_all_cons. unfold perform at 1 2 3. simpl fst.
  simpl snd.
  assert (register w env (Some u) pk
          = (Returned {| data := RegistrationData
                                   (new_row (db w) (stamp env) pk u);
                         status := HTTP_201_CREATED |},
             try_send_registration_email
               (set_db w (insert_row (db w)
                            (new_row (db w) (stamp env) pk u))) env pk u))
    as Hreg.
  { rewrite register_unfold, He, Hpast, Hex. unfold is_full.
    by rewrite Hmax. }
  rewrite Hreg. simpl fst. simpl snd.
  set (w1 := try_send_registration_email _ env pk u).
  assert (db w1 = insert_row (db w) (new_row (db w) (stamp env) pk u))
    as Hdb by apply db_try_send_registration_email.
  destruct (IH w1) as [IH1 IH2].
  - by rewrite Hdb.
  - done.
  - apply Forall_forall. intros [env' u'] Hin.
    rewrite Forall_forall in Hall. destruct (Hall _ Hin) as [Hp Hx].
    simpl in Hp, Hx. simpl fst. simpl snd. split; [done|].
    rewrite Hdb, filter_event_user_insert_row_other; [done|]. simpl.
    intros <-. apply Hu. apply list_elem_of_fmap. by exists (env', u).
  - split; [by constructor|]. rewrite IH2, Hdb.
    rewrite registered_count_insert_row. simpl.
    rewrite decide_True by done. lia.
Qed.

(** Users 11, 12 and 13 sign up for the meetup before it starts. *)
Lemma unlimited_event_admits_everyone_witness :
  registered_count
    (db (snd (perform_all (examples.world_of examples.db_busy)
                ((λ q, CallRegister (fst q) (Some (snd q)) 2%Z)
                   <$> examples.three_requests)))) 2%Z
  = 4%nat.
Proof.
  apply (unlimited_event_admits_everyone examples.three_requests
           (examples.world_of examples.db_busy) 2%Z examples.meetup
           eq_refl eq_refl).
  - by apply (bool_decide_unpack _).
  - by apply (bool_decide_unpack _).
Defined.

(** ** Lists of registrations *)

Global Instance newest_first_transitive : Transitive newest_first.
Proof. intros a b c. unfold newest_first. lia. Qed.

(** In a list sorted by [R] that holds [x] and, besides it, only
    elements that [R] does not put before [x], [x] comes first. *)
Lemma Sorted_head {A} `{!EqDecision A} (R : relation A) `{!Transitive R}
    (l old : list A) (x : A) :
  Sorted R l → l ≡ₚ x :: old → Forall (λ y, ¬ R y x) old →
  ∃ rest, l = x :: rest ∧ rest ≡ₚ old.
Proof.
  intros Hsorted Hperm Hold.
  destruct l as [|h t].
  { by apply Permutation_nil_cons in Hperm. }
  destruct (decide (h = x)) as [->|Hne].
  { exists t. split; [done|]. by apply Permutation_cons_inv in Hperm. }
  exfalso.
  apply Sorted_StronglySorted in Hsorted; [|done].
  apply StronglySorted_inv in Hsorted as [_ Hhead].
  assert (h ∈ x :: old) as Hh by (rewrite <- Hperm; left).
  assert (x ∈ h :: t) as Hx by (rewrite Hperm; left).
  apply elem_of_cons in Hh as [?|Hh]; [done|].
  apply elem_of_cons in Hx as [?|Hx]; [done|].
  rewrite Forall_forall in Hold, Hhead.
  by apply (Hold h Hh), Hhead.
Qed.

(** X9: After a successful [register] whose timestamp is later than that of
    every registration the event already has, the organizer's list of
    registrations starts with the new one, followed by the earlier
    ones. *)
Theorem latest_registration_is_listed_first (w : World) (env : Env)
    (u pk : Z) (e : Event) :
  Event_objects (db w) !! pk = Some e →
  status_code (fst (register w env (Some u) pk)) = HTTP_201_CREATED →
  Forall (λ r, (registered_at r < stamp env)%Z)
         (event_registrations (db w) pk) →
  ∃ rest,
    registrations (snd (register w env (Some u) pk))
                  (Some (organizer e)) pk
    = Returned {| data := RegistrationList
                            (new_row (db w) (stamp env) pk u :: rest);
                  status := HTTP_200_OK |}
    ∧ rest ≡ₚ event_registrations (db w) pk.
Proof.
  intros He Hst Hold.
  destruct (register_effect w env (Some u) pk)
    as [[_ Hne]|(u' & e' & [= <-] & _ & _ & _ & _ & _ & Hdb)]; [done|].
  set (w1 := snd (register w env (Some u) pk)) in *.
  set (r := new_row (db w) (stamp env) pk u) in *.
  assert (Event_objects (db w1) !! pk = Some e) as He1 by (by rewrite Hdb).
  unfold registrations. rewrite (get_object_lookup _ _ _ He1).
  rewrite bool_decide_eq_false_2 by (by intros []).
  destruct (Sorted_head newest_first (filter_event (db w1) pk)
              (event_registrations (db w) pk) r) as (rest & Hrest & Hperm).
  - apply (Sorted_merge_sort newest_first).
  - unfold filter_event. rewrite merge_sort_Permutation.
    unfold event_registrations. rewrite Hdb. simpl.
    rewrite filter_app, filter_cons_True, filter_nil by done.
    by rewrite <- Permutation_cons_append.
  - eapply Forall_impl; [exact Hold|]. unfold newest_first. simpl.
    intros; lia.
  - exists rest. by rewrite Hrest.
Qed.

(** User 12 signs up for the workshop at 11, after users 11 and 10. *)
Lemma latest_registration_is_listed_first_witness :
  ∃ rest,
    registrations
      (snd (register (examples.world_of examples.db_raised_limit)
                     examples.at_10 (Some 12%Z) 3%Z)) (Some 8%Z) 3%Z
    = Returned {| data := RegistrationList
                    ({| id := 5; event := 3; user := 12;
                        registered_at := 11 |} :: rest);
                  status := HTTP_200_OK |}.
Proof.
  destruct (latest_registration_is_listed_first
              (examples.world_of examples.db_raised_limit) examples.at_10
              12%Z 3%Z examples.big_workshop eq_refl eq_refl)
    as (rest & H & _).
  - by apply (bool_decide_unpack _).
  - by exists rest.
Defined.

(** X10: The list of [EventRegistrationViewSet] is refused to an anonymous
    request; an authenticated caller gets the registrations of that
    caller, all of them and none of anyone else, most recently created
    first. *)
Theorem own_registrations_only (w : World) (u : Z) :
  get_queryset w None = inl NotAuthenticated
  ∧ ∃ rs,
      get_queryset w (Some u) = inr rs
      ∧ rs ≡ₚ filter (λ r, user r = u) (EventRegistration_objects (db w))
      ∧ Forall (λ r, user r = u) rs
      ∧ Sorted (λ a b, (registered_at b ≤ registered_at a)%Z) rs.
Proof.
  split; [done|]. exists (filter_user (db w) u). split; [done|].
  assert (filter_user (db w) u
          ≡ₚ filter (λ r, user r = u) (EventRegistration_objects (db w)))
    as Hperm by apply merge_sort_Permutation.
  split; [done|]. split.
  - rewrite Hperm. apply Forall_forall.
    by intros r [? _]%list_elem_of_filter.
  - apply (Sorted_merge_sort newest_first).
Qed.

(** ** The filters of the event list *)

(** X11: With [is_upcoming] true, [filter_upcoming] keeps exactly the events
    that [is_past] does not call past at that reading of the clock, in
    their order, and [register] at that time refuses none of them as
    Closed. With [is_upcoming] false or absent it keeps every event: a
    false value does not select the past events. *)
Theorem filter_upcoming_keeps_open_events (now_ : Z)
    (queryset : list (Z * Event)) :
  filter_upcoming now_ queryset (Some true)
  = filter (λ row, is_past (snd row) now_ = false) queryset
  ∧ filter_upcoming now_ queryset (Some false) = queryset
  ∧ filter_upcoming now_ queryset None = queryset
  ∧ (∀ w env u pk e,
       (pk, e) ∈ filter_upcoming now_ queryset (Some true) →
       Event_objects (db w) !! pk = Some e →
       now env = now_ →
       fst (register w env (Some u) pk) ≠ failure Closed).
Proof.
  split; [|split; [done|split; [done|]]].
  - unfold filter_upcoming, is_past. apply list_filter_iff. intros [pk e].
    simpl. rewrite bool_decide_eq_false. lia.
  - intros w env u pk e [Hdate _]%list_elem_of_filter He Hnow.
    simpl in Hdate. rewrite register_unfold, He. unfold is_past.
    rewrite bool_decide_eq_false_2 by lia.
    destruct (is_full (db w) pk e); [done|].
    by destruct (exists_ (filter_event_user (db w) pk u)).
Qed.



(** ** Who may change an event *)

(** X14: Under [IsOwnerOrReadOnly] a request with a safe method passes both
    checks whoever sends it, an anonymous request with any other method
    is stopped by the first check, and a request with any other method
    passes both checks exactly when it comes from the organizer of the
    event. *)
Theorem write_access_is_the_organizers (method : permissions.Method)
    (request_user : option Z) (obj : Event) :
  (method ∈ permissions.SAFE_METHODS →
   permissions.has_permission method request_user = true
   ∧ permissions.has_object_permission method request_user obj = true)
  ∧ (method ∉ permissions.SAFE_METHODS →
     permissions.has_permission method None = false
     ∧ (permissions.has_permission method request_user
        && permissions.has_object_permission method request_user obj
        = true
        ↔ request_user = Some (organizer obj))).
Proof.
  unfold permissions.has_permission, permissions.has_object_permission.
  split; intros Hm.
  - by rewrite bool_decide_eq_true_2.
  - rewrite bool_decide_eq_false_2 by done. split; [done|].
    destruct request_user as [u|]; simpl.
    + by rewrite bool_decide_eq_true.
    + split; discriminate.
Qed.

Lemma write_access_is_the_organizers_witness :
  permissions.has_permission permissions.PATCH (Some 8%Z)
  && permissions.has_object_permission permissions.PATCH (Some 8%Z)
       examples.workshop = true
  ∧ permissions.has_permission permissions.GET None = true.
Proof.
  destruct (write_access_is_the_organizers permissions.PATCH (Some 8%Z)
              examples.workshop) as [_ Hwrite].
  destruct (write_access_is_the_organizers permissions.GET None
              examples.workshop) as [Hread _].
  split.
  - apply Hwrite; [by apply (bool_decide_unpack _) | done].
  - apply Hread. by apply (bool_decide_unpack _).
Defined.

(** ** Deleting an event *)

Lemma NoDup_fmap_filter {A B} (f : A → B) (P : A → Prop)
    `{!∀ x, Decision (P x)} (l : list A) :
  NoDup (f <$> l) → NoDup (f <$> filter P l).
Proof.
  induction l as [|a l IH]; [done|]. simpl.
  rewrite NoDup_cons. intros [Ha Hl]. rewrite filter_cons.
  case_decide; [|by apply IH]. simpl. apply NoDup_cons. split; [|by apply IH].
  intros (x & Hx & Hin%list_elem_of_filter)%list_elem_of_fmap.
  apply Ha. rewrite Hx. apply list_elem_of_fmap_2. tauto.
Qed.

Lemma db_ok_delete_event (d : DB) (pk : Z) :
  db_ok d → db_ok (delete_event d pk).
Proof.
  intros (Hid & Hlt & Hpair). unfold db_ok, delete_event. simpl.
  split; [by apply NoDup_fmap_filter|].
  split; [|by apply NoDup_fmap_filter].
  rewrite !Forall_forall in *. intros x [_ Hx]%list_elem_of_filter.
  by apply Hlt.
Qed.

(** X15: [destroy] deletes an existing event for its organizer only: an
    anonymous request is answered [NotAuthenticated], any other user
    [PermissionDenied], and nothing changes. For the organizer the
    event goes together with all its registrations, every other event
    keeps its row and its registrations, the schema still holds, and
    [register] for the deleted event is answered NotFound. *)
Theorem destroy_is_the_organizers_and_cascades (w : World)
    (request_user : option Z) (pk : Z) (e : Event) :
  Event_objects (db w) !! pk = Some e →
  (request_user = Some (organizer e) →
   ∃ w',
     destroy w request_user pk = (NoContent, w')
     ∧ Event_objects (db w') !! pk = None
     ∧ event_registrations (db w') pk = []
     ∧ (∀ pk', pk' ≠ pk →
          Event_objects (db w') !! pk' = Event_objects (db w) !! pk'
          ∧ event_registrations (db w') pk'
            = event_registrations (db w) pk')
     ∧ (db_ok (db w) → db_ok (db w'))
     ∧ (∀ env u, register w' env (Some u) pk = (failure NotFound, w')))
  ∧ (request_user ≠ Some (organizer e) →
     destroy w request_user pk
     = (match request_user with
        | None => DestroyRaised NotAuthenticated
        | Some _ => PermissionDenied
        end, w)).
Proof.
  intros He. unfold destroy. rewrite (get_object_lookup _ _ _ He).
  unfold permissions.has_permission, permissions.has_object_permission.
  rewrite !bool_decide_eq_false_2 by (by apply (bool_decide_unpack _)).
  split.
  - intros ->. rewrite bool_decide_eq_true_2 by done. simpl.
    eexists. split; [done|]. simpl.
    split; [apply lookup_delete_eq|].
    split; [|split; [|split]].
    + unfold event_registrations. simpl. rewrite list_filter_filter.
      induction (EventRegistration_objects (db w)) as [|r l IH]; [done|].
      rewrite filter_cons_False; [done | tauto].
    + intros pk' Hpk'. split; [by apply lookup_delete_ne|].
      unfold event_registrations. simpl.
      apply list_filter_filter_l. intros r ->. done.
    + apply db_ok_delete_event.
    + intros env u. rewrite register_unfold. simpl.
      by rewrite lookup_delete_eq.
  - intros Hne. destruct request_user as [u|]; [|done]. simpl.
    by rewrite bool_decide_eq_false_2.
Qed.

(** User 8 deletes the workshop; user 7 may not. *)
Lemma destroy_is_the_organizers_and_cascades_witness :
  (∃ w',
     destroy (examples.world_of examples.db_busy) (Some 8%Z) 3%Z
     = (NoContent, w')
     ∧ event_registrations (db w') 3%Z = []
     ∧ event_registrations (db w') 1%Z
       = event_registrations examples.db_busy 1%Z)
  ∧ destroy (examples.world_of examples.db_busy) (Some 7%Z) 3%Z
    = (PermissionDenied, examples.world_of examples.db_busy).
Proof.
  destruct (destroy_is_the_organizers_and_cascades
              (examples.world_of examples.db_busy) (Some 8%Z) 3%Z
              examples.workshop eq_refl) as [Hown _].
  destruct (destroy_is_the_organizers_and_cascades
              (examples.world_of examples.db_busy) (Some 7%Z) 3%Z
              examples.workshop eq_refl) as [_ Hother].
  split.
  - destruct (Hown eq_refl) as (w' & H1 & _ & H2 & H3 & _).
    exists w'. split; [done|]. split; [done|]. by apply (H3 1%Z).
  - by apply Hother.
Defined.

(** ** Logging in and out *)

Lemma not_false (x : option string) :
  accounts.not_ x = false ↔ ∃ s, x = Some s ∧ s ≠ ""%string.
Proof.
  destruct x as [s|]; simpl.
  - rewrite bool_decide_eq_false. split.
    + intros Hs. by exists s.
    + by intros (s' & [= <-] & Hs).
  - split; [discriminate | by intros (s & ? & _)].
Qed.

(** X16: [login_view] answers 200 exactly when a username and a password are
    given, neither empty, and [authenticate] accepts them. In every
    other case the token table stays as it is; when the username or the
    password is missing or empty the answer is 400 whatever
    [authenticate] would say, and 401 when [authenticate] rejects. *)
Theorem login_needs_valid_credentials
    (authenticate : string → string → option Z) (fresh : string)
    (tokens : gmap Z string) (username password : option string) :
  (accounts.status
     (fst (accounts.login_view authenticate fresh tokens username password))
   = 200%Z
   ↔ ∃ name pass u,
       username = Some name ∧ password = Some pass
       ∧ name ≠ ""%string ∧ pass ≠ ""%string
       ∧ authenticate name pass = Some u)
  ∧ (accounts.status
       (fst (accounts.login_view authenticate fresh tokens
               username password)) ≠ 200%Z →
     snd (accounts.login_view authenticate fresh tokens username password)
     = tokens)
  ∧ (accounts.not_ username = true ∨ accounts.not_ password = true →
     fst (accounts.login_view authenticate fresh tokens username password)
     = {| accounts.data :=
            accounts.ErrorData "Username and password are required";
          accounts.status := 400 |})
  ∧ (∀ name pass,
       username = Some name → password = Some pass →
       name ≠ ""%string → pass ≠ ""%string →
       authenticate name pass = None →
       fst (accounts.login_view authenticate fresh tokens username password)
       = {| accounts.data := accounts.ErrorData "Invalid credentials";
            accounts.status := 401 |}).
Proof.
  unfold accounts.login_view.
  destruct (accounts.not_ username) eqn:Hu.
  { simpl. split; [|split; [done|split; [done|]]].
    - split; [discriminate|].
      intros (name & pass & u & -> & _ & Hname & _). simpl in Hu.
      by apply bool_decide_eq_true in Hu.
    - intros name pass -> _ Hname. simpl in Hu.
      by apply bool_decide_eq_true in Hu. }
  destruct (accounts.not_ password) eqn:Hp.
  { simpl. split; [|split; [done|split; [done|]]].
    - split; [discriminate|].
      intros (name & pass & u & _ & -> & _ & Hpass & _). simpl in Hp.
      by apply bool_decide_eq_true in Hp.
    - intros name pass _ -> _ Hpass. simpl in Hp.
      by apply bool_decide_eq_true in Hp. }
  apply not_false in Hu as (name & -> & Hname).
  apply not_false in Hp as (pass & -> & Hpass). simpl.
  destruct (authenticate name pass) as [u|] eqn:Hauth.
  - destruct (accounts.get_or_create tokens fresh u) as [key tokens'].
    simpl. split; [|split; [done|split]].
    + split; [|done]. intros _. by exists name, pass, u.
    + intros [?|?]; discriminate.
    + intros ?? [= <-] [= <-]. congruence.
  - simpl. split; [|split; [done|split]].
    + split; [discriminate|].
      intros (? & ? & u & [= <-] & [= <-] & _ & _ & ?). congruence.
    + intros [?|?]; discriminate.
    + done.
Qed.

(** X17: A successful login returns the key of the token that the table then
    holds for the user. A user who had a token keeps it and the table
    is unchanged; otherwise the new key is stored and the tokens of the
    other users stay. Logging in again returns the same key and changes
    nothing, whatever key a new token would have had. *)
Theorem login_returns_the_users_token
    (authenticate : string → string → option Z) (fresh : string)
    (tokens : gmap Z string) (name pass : string) (u : Z) :
  name ≠ ""%string → pass ≠ ""%string →
  authenticate name pass = Some u →
  ∃ key tokens',
    accounts.login_view authenticate fresh tokens (Some name) (Some pass)
    = ({| accounts.data := accounts.LoginData key u "Login successful";
          accounts.status := 200 |}, tokens')
    ∧ tokens' !! u = Some key
    ∧ (∀ old, tokens !! u = Some old → key = old ∧ tokens' = tokens)
    ∧ (tokens !! u = None → key = fresh)
    ∧ (∀ v, v ≠ u → tokens' !! v = tokens !! v)
    ∧ (∀ fresh',
         accounts.login_view authenticate fresh' tokens'
           (Some name) (Some pass)
         = ({| accounts.data := accounts.LoginData key u "Login successful";
               accounts.status := 200 |}, tokens')).
Proof.
  intros Hname Hpass Hauth. unfold accounts.login_view. simpl.
  rewrite !bool_decide_eq_false_2 by done. simpl. rewrite Hauth.
  unfold accounts.get_or_create.
  destruct (tokens !! u) as [old|] eqn:Hold.
  - exists old, tokens. split; [done|]. split; [done|].
    split; [by intros ? [= <-]|]. split; [done|]. split; [done|].
    intros fresh'. by rewrite Hold.
  - exists fresh, (<[u := fresh]> tokens). split; [done|].
    split; [apply lookup_insert_eq|]. split; [done|]. split; [done|].
    split; [intros v Hv; by apply lookup_insert_ne|].
    intros fresh'. by rewrite lookup_insert_eq.
Qed.

(** Alice logs in for the first time and receives a new token; the
    token of user 11 stays. *)
Lemma login_returns_the_users_token_witness :
  ∃ tokens',
    accounts.login_view examples.authenticate "5f0c3a1e77aa"
      examples.tokens_of_11 (Some "alice"%string) (Some "wonderland"%string)
    = ({| accounts.data :=
            accounts.LoginData "5f0c3a1e77aa" 10 "Login successful";
          accounts.status := 200 |}, tokens')
    ∧ tokens' !! 11%Z = Some "9944b09199c6"%string.
Proof.
  destruct (login_returns_the_users_token examples.authenticate
              "5f0c3a1e77aa" examples.tokens_of_11 "alice" "wonderland"
              10%Z) as (key & tokens' & H1 & _ & _ & H2 & H3 & _);
    [done | done | reflexivity |].
  exists tokens'. rewrite H1, (H2 eq_refl). split; [done|].
  by rewrite (H3 11%Z).
Defined.


(** ** What an event shows and what [register] answers *)

(** X19: The flags that the serializer shows for an event to an authenticated
    caller tell what [register] answers to that caller at the same
    time: the caller is admitted exactly when [is_past], [is_full] and
    [is_registered] are all false; otherwise the answer is Closed when
    [is_past] is shown, else Full when [is_full] is shown, else
    AlreadyRegistered. [is_full] is shown exactly when a limit is set
    and the count shown has reached it. *)
Theorem shown_flags_predict_register (w : World) (env : Env) (u pk : Z)
    (e : Event) :
  Event_objects (db w) !! pk = Some e →
  let shown := computed_fields (db w) (now env) (Some u) pk e in
  (status_code (fst (register w env (Some u) pk)) = HTTP_201_CREATED
   ↔ shown_is_past shown = false ∧ shown_is_full shown = false
     ∧ shown_is_registered shown = false)
  ∧ (status_code (fst (register w env (Some u) pk)) ≠ HTTP_201_CREATED →
     register w env (Some u) pk
     = (failure (if shown_is_past shown then Closed
                 else if shown_is_full shown then Full
                 else AlreadyRegistered), w))
  ∧ (shown_is_full shown = true
     ↔ ∃ m, max_participants e = Some m
            ∧ (m ≤ shown_registered_count shown)%nat).
Proof.
  intros He shown. subst shown. unfold computed_fields. simpl.
  rewrite register_unfold, He. split; [|split].
  - destruct (is_past e (now env)); [by split; [|intros (? & _)]|].
    destruct (is_full (db w) pk e); [by split; [|intros (_ & ? & _)]|].
    destruct (exists_ (filter_event_user (db w) pk u));
      [by split; [|intros (_ & _ & ?)]|].
    done.
  - destruct (is_past e (now env)); [done|].
    destruct (is_full (db w) pk e); [done|].
    by destruct (exists_ (filter_event_user (db w) pk u)).
  - unfold is_full. destruct (max_participants e) as [m|].
    + rewrite bool_decide_eq_true. split.
      * intros Hm. by exists m.
      * by intros (m' & [= <-] & Hm).
    + split; [discriminate | by intros (m & ? & _)].
Qed.

(** The conference shows user 11 [is_full] and nothing else; user 11 is
    told Full. *)
Lemma shown_flags_predict_register_witness :
  computed_fields examples.db_busy 10 (Some 11%Z) 1%Z examples.conference
  = {| shown_registered_count := 1; shown_is_full := true;
       shown_is_past := false; shown_is_registered := false |}
  ∧ register (examples.world_of examples.db_busy) examples.at_10
             (Some 11%Z) 1%Z
    = (failure Full, examples.world_of examples.db_busy).
Proof.
  split; [reflexivity|].
  destruct (shown_flags_predict_register
              (examples.world_of examples.db_busy) examples.at_10
              11%Z 1%Z examples.conference eq_refl) as (_ & H & _).
  apply H. vm_compute. discriminate.
Defined.

(** ** The count counts people *)

(** X20: In a database that satisfies its schema no user appears twice among
    the registrations of an event, so [registered_count] is the number
    of users registered for it. *)
Theorem registered_count_counts_each_user_once (d : DB) (pk : Z) :
  db_ok d →
  NoDup (user <$> event_registrations d pk)
  ∧ registered_count d pk = length (user <$> event_registrations d pk)
  ∧ (∀ u, u ∈ user <$> event_registrations d pk
          ↔ get_is_registered d (Some u) pk = true).
Proof.
  intros (_ & _ & Hpair). split; [|split].
  - unfold event_registrations.
    induction (EventRegistration_objects d) as [|r l IH]; [constructor|].
    simpl in Hpair. apply NoDup_cons in Hpair as [Hr Hl].
    rewrite filter_cons. case_decide as Hev; [|by apply IH].
    simpl. apply NoDup_cons. split; [|by apply IH].
    intros (r' & Hu & [Hev' Hin]%list_elem_of_filter)%list_elem_of_fmap.
    apply Hr. apply list_elem_of_fmap. exists r'. split; [|done].
    congruence.
  - unfold registered_count. by rewrite length_fmap.
  - intros u. unfold get_is_registered. rewrite exists_true.
    unfold event_registrations, filter_event_user. split.
    + intros (r & -> & [Hev Hin]%list_elem_of_filter)%list_elem_of_fmap.
      exists r. by apply list_elem_of_filter.
    + intros (r & [[Hev Hu] Hin]%list_elem_of_filter).
      apply list_elem_of_fmap. exists r. split; [done|].
      by apply list_elem_of_filter.
Qed.

Lemma registered_count_counts_each_user_once_witness :
  NoDup (user <$> event_registrations examples.db_busy 3%Z)
  ∧ registered_count examples.db_busy 3%Z = 2%nat.
Proof.
  destruct (registered_count_counts_each_user_once examples.db_busy 3%Z)
    as (H1 & H2 & _); [by apply (bool_decide_unpack _)|].
  split; [done|]. by rewrite H2.
Defined.

(** ** Identical requests that race *)

Lemma filter_event_user_length (d : DB) (pk u : Z) :
  db_ok d → (length (filter_event_user d pk u) ≤ 1)%nat.
Proof.
  intros Hok. destruct (exists_ (filter_event_user d pk u)) eqn:Hex.
  - destruct (get_of_exists _ _ _ Hok Hex) as (r & -> & _). done.
  - apply exists_false in Hex. rewrite Hex. simpl. lia.
Qed.

Lemma length_filter_insert {A} (P : A → Prop) `{!∀ x, Decision (P x)}
    (l : list A) (i : nat) (x y : A) :
  l !! i = Some x →
  (length (filter P (<[i := y]> l)) + (if decide (P x) then 1 else 0)
   = length (filter P l) + (if decide (P y) then 1 else 0))%nat.
Proof.
  revert i. induction l as [|a l IH]; intros i Hi; [done|].
  destruct i as [|i]; simpl in *.
  - injection Hi as ->. rewrite !filter_cons.
    repeat case_decide; simpl; lia.
  - specialize (IH i Hi). rewrite !filter_cons.
    repeat case_decide; simpl; lia.
Qed.

(** What one database access of a task does to the number of admitted
    tasks and to the rows of a pair: both stay, or both grow by one. *)
Lemma advance_accepted (w : World) (t : Task) (pk u : Z) :
  let t' := fst (advance w t) in
  let w' := snd (advance w t) in
  (accepted pk u t' = accepted pk u t
   ∧ filter_event_user (db w') pk u = filter_event_user (db w) pk u)
  ∨ (accepted pk u t = false ∧ accepted pk u t' = true
     ∧ length (filter_event_user (db w') pk u)
       = S (length (filter_event_user (db w) pk u))).
Proof.
  destruct t as [env ru pk0|env pk0 u0 event_id|o]; simpl.
  - left.
    destruct (register_is_valid (db w) (now env) ru pk0)
      as [o|[u1 eid]] eqn:Hvalid; simpl; [|done].
    split; [|done]. revert Hvalid.
    unfold register_is_valid.
    destruct ru as [u1|]; [|by intros [= <-]].
    destruct (get_object (db w) pk0); [by intros [= <-]|].
    destruct (validate_event_id (db w) (now env) (Some u1) pk0);
      by intros [= <-].
  - unfold register_save, create, objects_create.
    destruct (Event_objects (db w) !! event_id); [|by left].
    destruct (exists_ (filter_event_user (db w) event_id u0)); [by left|].
    simpl. rewrite db_try_send_registration_email. simpl.
    unfold filter_event_user. simpl. rewrite filter_app, filter_singleton;
      [|exact []].
    simpl. destruct (decide (event_id = pk ∧ u0 = u)) as [Heq|Hne].
    + right. rewrite bool_decide_eq_true_2 by done.
      split; [done|]. split; [done|]. rewrite length_app. simpl. lia.
    + left. rewrite bool_decide_eq_false_2 by done.
      by rewrite app_nil_r.
  - by left.
Qed.

Lemma step_accepted (c : Config) (i : nat) (pk u : Z) :
  (length (filter (λ t, accepted pk u t = true) (tasks c))
   ≤ length (filter_event_user (db (world c)) pk u))%nat →
  (length (filter (λ t, accepted pk u t = true) (tasks (step c i)))
   ≤ length (filter_event_user (db (world (step c i))) pk u))%nat.
Proof.
  intros Hle. unfold step.
  destruct (tasks c !! i) as [t|] eqn:Hi; [|done].
  pose proof (advance_accepted (world c) t pk u) as Hadv.
  destruct (advance (world c) t) as [t' w']. simpl in *.
  pose proof (length_filter_insert (λ t, accepted pk u t = true)
                (tasks c) i t t' Hi) as Hlen.
  cbv beta in Hlen.
  destruct Hadv as [[Ht Hw]|(Ht & Ht' & Hw)].
  - rewrite Hw. rewrite Ht in Hlen.
    destruct (decide (accepted pk u t = true)); lia.
  - rewrite Hw. rewrite Ht, Ht' in Hlen.
    rewrite decide_False, decide_True in Hlen by done. lia.
Qed.

(** X21: Whatever the interleaving of the checks and insertions of any
    [register] requests, none of which had finished with an admission
    of user [u] to event [pk] at the outset, at most one of them ends
    with such an admission: [unique_together] stops every further
    insertion for the pair. *)
Theorem at_most_one_admission_per_pair (c : Config) (sched : list nat)
    (pk u : Z) :
  db_ok (db (world c)) →
  Forall (λ t, accepted pk u t = false) (tasks c) →
  (length (filter (λ t, accepted pk u t = true) (tasks (run c sched)))
   ≤ 1)%nat.
Proof.
  intros Hok Hnone.
  pose proof (filter_event_user_length _ pk u (run_db_ok c sched Hok)) as H1.
  assert (length (filter (λ t, accepted pk u t = true) (tasks c))
          ≤ length (filter_event_user (db (world c)) pk u))%nat as Hinv.
  { replace (filter (λ t, accepted pk u t = true) (tasks c)) with (@nil Task);
      [simpl; lia|].
    symmetry. clear -Hnone. induction Hnone as [|t ts Ht _ IH]; [done|].
    rewrite filter_cons_False by congruence. done. }
  clear Hnone Hok. revert c Hinv H1.
  induction sched as [|i sched IH]; intros c Hinv H1; simpl in *; [lia|].
  apply IH; [by apply step_accepted | done].
Qed.

(** User 10 submits the same request for the workshop twice, and both
    requests pass the check before either inserts: one is admitted. *)
Lemma at_most_one_admission_per_pair_witness :
  (length (filter (λ t, accepted 3%Z 10%Z t = true)
             (tasks (run examples.double_submit [0; 1; 0; 1]%nat)))
   ≤ 1)%nat.
Proof.
  apply (at_most_one_admission_per_pair examples.double_submit
           [0; 1; 0; 1]%nat 3%Z 10%Z).
  - by apply (bool_decide_unpack _).
  - by apply (bool_decide_unpack _).
Defined.
